(** * ScreenshotTool: a shallow embedding of [client.py] and [web_run.py]

    The client's gesture detector ([on_click]), configuration dialog
    ([show_config_window]), uploader ([take_screenshot_and_upload]) and
    shutdown check ([check_for_shutdown]), and the server's catalogue
    ([get_all_users], [get_user_images], [delete_user_images]), upload route
    ([api_upload_image]) and page handlers ([update_ui_components],
    [check_for_updates], [handle_delete_batch]) are translated to Rocq
    functions.  Global variables become an explicit state
    record, clock readings ([time.time()], [datetime.now()]) and the outcome
    of file-system writes are inputs supplied by the environment, and Python
    exceptions become the [Raise] branch of a result type.

    Modelling conventions.
    - A Python [str] is a [string] holding its UTF-8 bytes; comparing two
      such strings bytewise is comparing them by code point, as Python does.
    - A reading of [time.time()] and the hold threshold are rationals; a
      reading of [datetime.now()] is the record of its fields.
    - Paths follow the POSIX flavour of [os.path].
    - The upload directory is a two-level tree: the entries of [UPLOAD_DIR],
      which is a directory or absent, and the files of each entry that is a
      directory; a user directory holds files only.  The keys of the tree are
      the names [os.listdir] returns, so an entry is looked up by a name that
      is a single path component ([Gallery.path_component]).  A name that
      comes from outside (a form field, the dropdown, the client's
      configuration) and is joined to [UPLOAD_DIR] by the code is covered
      where it is such a component; the theorems carry that as a hypothesis.
      A name with a separator, [.], [..], a NUL byte or more than 255 bytes
      is outside the tree. *)

From Stdlib Require Import Strings.Byte Ascii String QArith Sorting.Sorted Sorting.Permutation DecimalString.
From stdpp Require Import base option list strings gmap fin_maps.
From Stdlib Require Import ZifyBool.
From Stdlib Require DecimalFacts DecimalPos DecimalN.

Local Open Scope string_scope.
Local Open Scope Z_scope.

(** ** Python strings and [os.path] *)

Module Py.

(** [s.startswith(pre)] *)
Definition startswith (pre s : string) : bool := String.prefix pre s.

(** [s.endswith(c)] for a one-character suffix *)
Fixpoint endswith (c : ascii) (s : string) : bool :=
  match s with
  | EmptyString => false
  | String a EmptyString => Ascii.eqb a c
  | String _ s' => endswith c s'
  end.

(** [s.rfind(c)]: the highest index holding [c], or [-1] *)
Fixpoint rfind (c : ascii) (s : string) : Z :=
  match s with
  | EmptyString => -1
  | String a s' =>
      let r := rfind c s' in
      if 0 <=? r then r + 1 else if Ascii.eqb a c then 0 else -1
  end.

(** [s[:n]] and [s[n:]] for [0 <= n] *)
Fixpoint take (n : nat) (s : string) : string :=
  match n, s with
  | S n', String a s' => String a (take n' s')
  | _, _ => EmptyString
  end.

Fixpoint drop (n : nat) (s : string) : string :=
  match n, s with
  | S n', String _ s' => drop n' s'
  | _, _ => s
  end.

(** [str.lower()] on the ASCII letters.  A non-ASCII character is a run of
    bytes above 127 and stays as it is; none lower-cases to a letter of the
    extensions the server looks for. *)
Definition lower_ascii (c : ascii) : ascii :=
  let n := nat_of_ascii c in
  if ((65 <=? n) && (n <=? 90))%nat then ascii_of_nat (n + 32) else c.

Fixpoint lower (s : string) : string :=
  match s with
  | EmptyString => EmptyString
  | String a s' => String (lower_ascii a) (lower s')
  end.

(** [posixpath.join(a, b)] *)
Definition os_path_join (a b : string) : string :=
  if startswith "/" b then b
  else if String.eqb a "" || endswith "/" a then a ++ b
  else a ++ "/" ++ b.

(** [posixpath.basename(p)]: [p[p.rfind('/') + 1:]] *)
Definition os_path_basename (p : string) : string :=
  drop (Z.to_nat (rfind "/" p + 1)) p.

(** The [while] loop of [genericpath._splitext]: [n] characters from
    [filenameIndex] up to the last dot remain; it answers [true] as soon as
    one of them is not a dot. *)
Fixpoint splitext_scan (p : string) (filenameIndex n : nat) : bool :=
  match n with
  | O => false
  | S n' =>
      match String.get filenameIndex p with
      | Some c => if Ascii.eqb c "." then splitext_scan p (S filenameIndex) n' else true
      | None => true
      end
  end.

(** [os.path.splitext(p)] *)
Definition os_path_splitext (p : string) : string * string :=
  let sepIndex := rfind "/" p in
  let dotIndex := rfind "." p in
  if dotIndex >? sepIndex then
    let filenameIndex := sepIndex + 1 in
    if splitext_scan p (Z.to_nat filenameIndex) (Z.to_nat (dotIndex - filenameIndex))
    then (take (Z.to_nat dotIndex) p, drop (Z.to_nat dotIndex) p)
    else (p, "")
  else (p, "").

(** [sorted(l, key=key, reverse=reverse)].  Python's sort is stable, also
    with [reverse=True]; a stable sort has one possible result, computed
    here by insertion from the right. *)
Section Sorted.
Context {A : Type} (key : A → string) (reverse : bool).

Definition comes_before (y x : A) : bool :=
  if reverse then String.ltb (key x) (key y) else String.ltb (key y) (key x).

Fixpoint insert_sorted (x : A) (l : list A) : list A :=
  match l with
  | [] => [x]
  | y :: ys => if comes_before y x then y :: insert_sorted x ys else x :: y :: ys
  end.

Definition sorted (l : list A) : list A := foldr insert_sorted [] l.

(** [x] may stand before [y] in the order the call asks for. *)
Definition in_order (x y : A) : Prop :=
  if reverse then String.le (key y) (key x) else String.le (key x) (key y).
End Sorted.

End Py.

(** ** The client: [client.py] *)

Module Client.

(** [pynput.mouse.Button] *)
Inductive Button := left | middle | right.

Record Config := {
  username : string;
  server_address : string;
  click_time : Q
}.

(** The module-level [config] dictionary as first bound. *)
Definition default_config : Config :=
  {| username := "default_user";
     server_address := "http://127.0.0.1:7860/";
     click_time := 4%Q |}.

(** The globals [on_click] declares: [config] and
    [left_button_press_time] ([None] until a press). *)
Record Globals := {
  config : Config;
  left_button_press_time : option Q
}.

Definition initial_globals : Globals :=
  {| config := default_config; left_button_press_time := None |}.

(** What a handler does to the outside: start a daemon thread on a target. *)
Inductive Target := take_screenshot_and_upload.
Inductive Effect := Thread_start (target : Target).

(** [on_click(x, y, button, pressed)]; [now] is what [time.time()] reads
    during the call. *)
Definition on_click (x y : Z) (button : Button) (pressed : bool)
    (now : Q) (g : Globals) : Globals * list Effect :=
  match button with
  | left =>
      if pressed then
        ({| config := config g; left_button_press_time := Some now |}, [])
      else
        match left_button_press_time g with
        | Some press_time =>
            let hold_duration := (now - press_time)%Q in
            let g' := {| config := config g; left_button_press_time := None |} in
            if Qle_bool (click_time (config g)) hold_duration
            then (g', [Thread_start take_screenshot_and_upload])
            else (g', [])
        | None => (g, [])
        end
  | _ => (g, [])
  end.

(** The two events the detector reacts to: the left button going down and
    coming up. *)
Definition press (x y : Z) := on_click x y left true.
Definition release (x y : Z) := on_click x y left false.

(** The configuration dialog writes [config] between two pointer events. *)
Definition with_config (cfg : Config) (g : Globals) : Globals :=
  {| config := cfg; left_button_press_time := left_button_press_time g |}.

End Client.

(** ** The server: [web_run.py] *)

Module Server.
Import Py.

Definition UPLOAD_DIR : string := "uploads".
Definition ALL_USERS_OPTION : string := "所有用户".

(** *** Exceptions *)

Inductive Exception :=
| HTTPException (status_code : nat) (detail : string)
| FileExistsError
| FileNotFoundError
| NotADirectoryError
| OSError
| AttributeError
| RequestValidationError.

Inductive Result (A : Type) :=
| Ok (a : A)
| Raise (e : Exception).
Arguments Ok {A} a.
Arguments Raise {A} e.

Definition bind {A B : Type} (r : Result A) (k : A → Result B) : Result B :=
  match r with
  | Ok a => k a
  | Raise e => Raise e
  end.

Notation "x ←← r ;; k" := (bind r (λ x, k))
  (at level 100, r at next level, right associativity, only parsing).

(** *** [datetime] *)

(** A naive [datetime]: its fields, compared field by field from the year
    down, which is how Python orders two naive datetimes. *)
Record datetime := {
  year : N; month : N; day : N;
  hour : N; minute : N; second : N; microsecond : N
}.

Definition datetime_fields (d : datetime) : list N :=
  [year d; month d; day d; hour d; minute d; second d; microsecond d].

Fixpoint compare_fields (a b : list N) : comparison :=
  match a, b with
  | [], [] => Eq
  | [], _ :: _ => Lt
  | _ :: _, [] => Gt
  | x :: a', y :: b' =>
      match N.compare x y with
      | Eq => compare_fields a' b'
      | c => c
      end
  end.

(** [a > b] on datetimes *)
Definition datetime_gt (a b : datetime) : bool :=
  match compare_fields (datetime_fields a) (datetime_fields b) with
  | Gt => true
  | _ => false
  end.

(** A zero-padded decimal field of [strftime]. *)
Definition zero_pad (width : nat) (n : N) : string :=
  let s := NilZero.string_of_uint (N.to_uint n) in
  string_of_list_ascii (replicate (width - String.length s) "0"%char) ++ s.

(** [d.strftime("%Y%m%d_%H%M%S%f")] *)
Definition strftime (d : datetime) : string :=
  zero_pad 4 (year d) ++ zero_pad 2 (month d) ++ zero_pad 2 (day d) ++ "_"
  ++ zero_pad 2 (hour d) ++ zero_pad 2 (minute d) ++ zero_pad 2 (second d)
  ++ zero_pad 6 (microsecond d).

(** *** The upload directory *)

(** An entry of [UPLOAD_DIR]: a user's directory with its files, or
    something that is not a directory.  A user directory holds files only:
    a store in which somebody put a directory inside a user directory is
    not covered. *)
Inductive Entry :=
| Directory (files : gmap string (list byte))
| RegularFile (content : list byte).

(** [None] when [UPLOAD_DIR] does not exist. *)
Abbreviation Storage := (option (gmap string Entry)).

Definition entries (fs : Storage) : gmap string Entry :=
  match fs with
  | Some root => root
  | None => ∅
  end.

(** In the functions below [name] is a single path component, so that
    [os.path.join(UPLOAD_DIR, name)] denotes the entry [name] of
    [UPLOAD_DIR]. *)

(** [os.path.exists(os.path.join(UPLOAD_DIR, name))] *)
Definition os_path_exists (fs : Storage) (name : string) : bool :=
  match entries fs !! name with
  | Some _ => true
  | None => false
  end.

(** [os.path.isdir(os.path.join(UPLOAD_DIR, name))] *)
Definition os_path_isdir (fs : Storage) (name : string) : bool :=
  match entries fs !! name with
  | Some (Directory _) => true
  | _ => false
  end.

(** [os.listdir(os.path.join(UPLOAD_DIR, name))], in whatever order the
    directory yields its names. *)
Definition os_listdir (fs : Storage) (name : string) : Result (list string) :=
  match entries fs !! name with
  | Some (Directory files) => Ok (map_to_list files).*1
  | Some (RegularFile _) => Raise NotADirectoryError
  | None => Raise FileNotFoundError
  end.

(** [os.makedirs(os.path.join(UPLOAD_DIR, name), exist_ok=True)] *)
Definition os_makedirs (fs : Storage) (name : string) : Result Storage :=
  match entries fs !! name with
  | Some (Directory _) => Ok fs
  | Some (RegularFile _) => Raise FileExistsError
  | None => Ok (Some (<[name := Directory ∅]> (entries fs)))
  end.

(** The file [fname] of directory [name] holds [data]: what
    [open(filepath, "wb")] followed by writing [data] leaves. *)
Definition write_file (fs : Storage) (name fname : string) (data : list byte) : Storage :=
  alter (λ e, match e with
              | Directory files => Directory (<[fname := data]> files)
              | RegularFile c => RegularFile c
              end) name <$> fs.

(** What reading the file [fname] of directory [name] back gives. *)
Definition read_file (fs : Storage) (name fname : string) : option (list byte) :=
  match entries fs !! name with
  | Some (Directory files) => files !! fname
  | _ => None
  end.

(** How the [with open(...)] block of an upload ends: the copy completes,
    [open] raises, or [shutil.copyfileobj] raises once [n] bytes went out. *)
Inductive WriteOutcome :=
| Written
| OpenRaises
| CopyRaises (n : nat).

(** How [shutil.rmtree] ends: the directory is gone, or it raises after
    unlinking the files [removed]. *)
Inductive RmtreeOutcome :=
| Removed
| RmtreeRaises (removed : list string).

Definition shutil_rmtree (fs : Storage) (name : string) (rm : RmtreeOutcome) : Storage :=
  match rm with
  | Removed => delete name <$> fs
  | RmtreeRaises removed =>
      alter (λ e, match e with
                  | Directory files => Directory (foldr delete files removed)
                  | RegularFile c => RegularFile c
                  end) name <$> fs
  end.

(** *** Global state *)

Record AppState := { _last_update_time : datetime }.

Definition last_update_time (a : AppState) : datetime := _last_update_time a.

(** Lines the server prints. *)
Inductive LogLine :=
| FileSystem_updated_at (t : datetime)
| Delete_failed (username : string).

Record ServerState := {
  storage : Storage;
  app_state : AppState;
  stdout : list LogLine
}.

(** [AppState.mark_updated]; [now] is what [datetime.now()] reads. *)
Definition mark_updated (now : datetime) (s : ServerState) : ServerState :=
  {| storage := storage s;
     app_state := {| _last_update_time := now |};
     stdout := (stdout s ++ [FileSystem_updated_at now])%list |}.

Definition with_storage (fs : Storage) (s : ServerState) : ServerState :=
  {| storage := fs; app_state := app_state s; stdout := stdout s |}.

Definition print (line : LogLine) (s : ServerState) : ServerState :=
  {| storage := storage s; app_state := app_state s; stdout := (stdout s ++ [line])%list |}.

(** *** Core functions *)

Definition get_all_users (fs : Storage) : list string :=
  match fs with
  | None => []
  | Some root =>
      let users := filter (λ d, os_path_isdir fs d) (map_to_list root).*1 in
      sorted id false users
  end.

Definition image_extensions : list string :=
  [".jpg"; ".jpeg"; ".png"; ".gif"; ".bmp"; ".webp"].

(** [os.path.splitext(f)[1].lower() in image_extensions] *)
Definition has_image_extension (f : string) : Prop :=
  lower (os_path_splitext f).2 ∈ image_extensions.

(** The inner [for f in os.listdir(user_dir)] loop. *)
Definition append_images (user_dir : string) (names image_paths : list string) : list string :=
  (image_paths ++ (os_path_join user_dir <$> filter has_image_extension names))%list.

(** The [for user in get_all_users()] loop. *)
Fixpoint for_each_user (fs : Storage) (users image_paths : list string) : Result (list string) :=
  match users with
  | [] => Ok image_paths
  | user :: users' =>
      let user_dir := os_path_join UPLOAD_DIR user in
      names ←← os_listdir fs user;;
      for_each_user fs users' (append_images user_dir names image_paths)
  end.

Definition get_user_images (fs : Storage) (username : string) : Result (list string) :=
  image_paths ←←
    (if bool_decide (username = ALL_USERS_OPTION) then
       for_each_user fs (get_all_users fs) []
     else if negb (String.eqb username "") then
       let user_dir := os_path_join UPLOAD_DIR username in
       if os_path_exists fs username then
         names ←← os_listdir fs username;;
         Ok (append_images user_dir names [])
       else Ok []
     else Ok []);;
  Ok (sorted os_path_basename true image_paths).

(** What the inner loop collects for one user: the paths of the names in
    the user's directory that pass the extension test. *)
Definition user_images (fs : Storage) (user : string) : list string :=
  match entries fs !! user with
  | Some (Directory files) =>
      os_path_join (os_path_join UPLOAD_DIR user)
        <$> filter has_image_extension (map_to_list files).*1
  | _ => []
  end.

(** The extension of a file name as the specification speaks of it: what
    starts at the last dot, and nothing when the name has no dot. *)
Definition extension (name : string) : string :=
  let dotIndex := rfind "." name in
  if 0 <=? dotIndex then drop (Z.to_nat dotIndex) name else "".

(** [now] is read by [mark_updated]; [rm] is how [shutil.rmtree] ends. *)
Definition delete_user_images (username : string) (now : datetime)
    (rm : RmtreeOutcome) (s : ServerState) : ServerState * bool :=
  if String.eqb username "" || bool_decide (username = ALL_USERS_OPTION) then (s, false)
  else if negb (os_path_isdir (storage s) username) then (s, false)
  else
    let s1 := with_storage (shutil_rmtree (storage s) username rm) s in
    match rm with
    | Removed => (mark_updated now s1, true)
    | RmtreeRaises _ => (print (Delete_failed username) s1, false)
    end.

(** *** The upload route *)

Record UploadFile := {
  filename : string;
  content_type : string;
  file : list byte
}.

Inductive Response :=
| JSONResponse (status_code : nat) (content : list (string * string)).

(** What a call leaves behind: the server state, whether [image.file] was
    closed by the handler, and the response or the exception raised. *)
Record Outcome := {
  state_after : ServerState;
  file_closed : bool;
  result : Result Response
}.

(** [api_upload_image(username, timestamp, image)].  [now_name] is the clock
    reading that names the file, [now_mark] the later one [mark_updated]
    takes; [w] is how the write ends. *)
Definition api_upload_image (username timestamp : string) (image : UploadFile)
    (now_name now_mark : datetime) (w : WriteOutcome) (s : ServerState) : Outcome :=
  if negb (startswith "image/" (content_type image)) then
    {| state_after := s; file_closed := false;
       result := Raise (HTTPException 400 "文件类型错误，请上传图片。") |}
  else
    let user_dir := os_path_join UPLOAD_DIR username in
    match os_makedirs (storage s) username with
    | Raise e => {| state_after := s; file_closed := false; result := Raise e |}
    | Ok fs1 =>
        let server_timestamp := strftime now_name in
        let filename := server_timestamp ++ "_" ++ filename image in
        let filepath := os_path_join user_dir filename in
        match w with
        | Written =>
            let s2 := with_storage (write_file fs1 username filename (file image)) s in
            {| state_after := mark_updated now_mark s2; file_closed := true;
               result := Ok (JSONResponse 201
                 [("message", "图片上传成功"); ("server_path", filepath)]) |}
        | OpenRaises =>
            {| state_after := with_storage fs1 s; file_closed := true;
               result := Raise OSError |}
        | CopyRaises n =>
            let s2 := with_storage
                        (write_file fs1 username filename (List.firstn n (file image))) s in
            {| state_after := s2; file_closed := true; result := Raise OSError |}
        end
    end.

(** The status line the framework answers with: an [HTTPException] carries
    its own, a request that fails validation is answered 422, any other
    exception is a server error. *)
Definition http_status (r : Result Response) : nat :=
  match r with
  | Ok (JSONResponse status_code _) => status_code
  | Raise (HTTPException status_code _) => status_code
  | Raise RequestValidationError => 422
  | Raise _ => 500
  end.

(** *** The route as the framework serves it *)

(** The image part of a multipart request as it reaches the handler: the
    part's [Content-Type] header is optional, and [image.content_type] is
    [None] without it. *)
Record Part := {
  part_filename : string;
  part_content_type : option string;
  part_file : list byte
}.

(** [POST /api/upload].  [Form(...)] makes [username] and [timestamp]
    required, and an empty form field counts as missing: the framework then
    answers 422 and the handler does not run.  In the handler,
    [image.content_type.startswith] raises [AttributeError] on [None], before
    anything is touched. *)
Definition app_post_api_upload (username timestamp : string) (image : Part)
    (now_name now_mark : datetime) (w : WriteOutcome) (s : ServerState) : Outcome :=
  if String.eqb username "" || String.eqb timestamp "" then
    {| state_after := s; file_closed := false; result := Raise RequestValidationError |}
  else
    match part_content_type image with
    | None => {| state_after := s; file_closed := false; result := Raise AttributeError |}
    | Some declared =>
        api_upload_image username timestamp
          {| filename := part_filename image; content_type := declared;
             file := part_file image |}
          now_name now_mark w s
    end.

(** *** The polling handlers *)

(** The three outputs of a handler; [None] is [gr.skip()]. *)
Record Outputs := {
  username_dropdown : option (list string * string);
  gallery : option (list string);
  client_last_update : datetime
}.

Definition update_ui_components (username : string) (s : ServerState) : Result Outputs :=
  let all_users_from_disk := ALL_USERS_OPTION :: get_all_users (storage s) in
  let username_to_display :=
    if bool_decide (username ∈ all_users_from_disk) then username else ALL_USERS_OPTION in
  images_to_display ←← get_user_images (storage s) username_to_display;;
  Ok {| username_dropdown := Some (all_users_from_disk, username_to_display);
        gallery := Some images_to_display;
        client_last_update := last_update_time (app_state s) |}.

Definition check_for_updates (username : string) (last_known_update : datetime)
    (s : ServerState) : Result Outputs :=
  if datetime_gt (last_update_time (app_state s)) last_known_update then
    update_ui_components username s
  else
    Ok {| username_dropdown := None; gallery := None;
          client_last_update := last_known_update |}.

Definition initial_load (s : ServerState) : Result Outputs :=
  update_ui_components ALL_USERS_OPTION s.

End Server.

(** ** Sample data for the worked instances *)

Module Sample.
Import Server.

Definition at_0130 : datetime :=
  {| year := 2024; month := 11; day := 3;
     hour := 1; minute := 30; second := 0; microsecond := 250000 |}.

Definition at_0145 : datetime :=
  {| year := 2024; month := 11; day := 3;
     hour := 1; minute := 45; second := 12; microsecond := 7 |}.

(** Two users: [bob] with two images and a text file, [alice] with one
    image. *)
Definition two_users : Storage :=
  Some (<["bob" := Directory (<["2_b.png" := [x01]%byte]>
                             (<["1_a.PNG" := []]> (<["3_c.txt" := []]> ∅)))]>
        (<["alice" := Directory (<["2_z.gif" := []]> ∅)]> ∅)).

Definition serving (fs : Storage) (version : datetime) : ServerState :=
  {| storage := fs; app_state := {| _last_update_time := version |}; stdout := [] |}.

Definition screenshot : UploadFile :=
  {| filename := "screenshot.png"; content_type := "image/png";
     file := [x89; x50; x4e; x47]%byte |}.

Definition notes : UploadFile :=
  {| filename := "notes.txt"; content_type := "image/png";
     file := [x68; x69]%byte |}.

Definition document : UploadFile :=
  {| filename := "report.pdf"; content_type := "application/pdf";
     file := [x25; x50]%byte |}.




(** One user with two screenshots, stored at 01:30 and at 01:45. *)
Definition carol_twice : Storage :=
  Some (<["carol" := Directory
            (<[strftime at_0130 ++ "_screenshot.png" := [x01]%byte]>
               (<[strftime at_0145 ++ "_screenshot.png" := [x02]%byte]> ∅))]> ∅).
End Sample.

(** ** The rest of the client: dialog, uploader, shutdown *)

Module ClientApp.
Import Py Client.

(** *** The configuration dialog *)

(** What the dialog shows besides its three questions. *)
Inductive Message :=
| showwarning (title message : string)
| showinfo_after (delay_ms : nat) (title : string).

Definition set_username (u : string) (cfg : Config) : Config :=
  {| username := u; server_address := server_address cfg; click_time := click_time cfg |}.

Definition set_server_address (a : string) (cfg : Config) : Config :=
  {| username := username cfg; server_address := a; click_time := click_time cfg |}.

Definition set_click_time (t : Q) (cfg : Config) : Config :=
  {| username := username cfg; server_address := server_address cfg; click_time := t |}.

(** [show_config_window()].  The three answers are what the three
    [askstring] dialogs return, [None] for a dialog that was cancelled.
    [float] stands for Python's [float] on the text of the third answer:
    the number it denotes, [None] when [float] raises [ValueError]; the
    texts [inf] and [nan], which denote no rational, are left out. *)
Definition show_config_window (float : string → option Q)
    (username_answer server_address_answer click_time_str : option string)
    (g : Globals) : Globals * list Message :=
  let cfg1 :=
    match username_answer with
    | Some u => set_username u (config g)
    | None => config g
    end in
  let cfg2 :=
    match server_address_answer with
    | Some a => set_server_address a cfg1
    | None => cfg1
    end in
  let '(cfg3, warnings) :=
    match click_time_str with
    | Some text =>
        match float text with
        | Some new_time =>
            if negb (Qle_bool new_time 0)
            then (set_click_time new_time cfg2, [])
            else (cfg2, [showwarning "无效输入" "时间必须是大于0的数字。将使用上一次的有效值。"])
        | None =>
            (cfg2, [showwarning "无效输入" "请输入有效的数字作为时间。将使用上一次的有效值。"])
        end
    | None => (cfg2, [])
    end in
  (with_config cfg3 g, (warnings ++ [showinfo_after 100 "配置完成"])%list).

(** *** The events the two client threads deliver *)

Inductive Event :=
| Click (x y : Z) (button : Button) (pressed : bool) (now : Q)
| Configure (username_answer server_address_answer click_time_str : option string).

Definition step (float : string → option Q) (e : Event) (g : Globals)
    : Globals * list Effect :=
  match e with
  | Click x y button pressed now => on_click x y button pressed now g
  | Configure u a c => ((show_config_window float u a c g).1, [])
  end.

(** The globals after a sequence of events and the threads started on the
    way, oldest first. *)
Fixpoint run (float : string → option Q) (events : list Event) (g : Globals)
    : Globals * list Effect :=
  match events with
  | [] => (g, [])
  | e :: events' =>
      let '(g1, started) := step float e g in
      let '(g2, started') := run float events' g1 in
      (g2, (started ++ started')%list)
  end.

(** A press of the left button. *)
Definition is_left_press (e : Event) : bool :=
  match e with
  | Click _ _ left true _ => true
  | _ => false
  end.

(** Every event but a click of another button. *)
Definition is_left_click (e : Event) : bool :=
  match e with
  | Click _ _ left _ _ => true
  | Click _ _ _ _ _ => false
  | Configure _ _ _ => true
  end.

(** *** The uploader *)

(** [s.replace(old, new)] for one-character [old] and [new] *)
Fixpoint replace (old new : ascii) (s : string) : string :=
  match s with
  | EmptyString => EmptyString
  | String a s' => String (if Ascii.eqb a old then new else a) (replace old new s')
  end.

(** The two families the [except] clauses tell apart. *)
Inductive Exception :=
| RequestException
| OtherException.

(** How [ImageGrab.grab()] and the encoding to PNG end. *)
Inductive GrabOutcome :=
| Grabbed (png : list byte)
| GrabRaises.

(** How [response.json()] ends. *)
Inductive JsonOutcome :=
| JsonParsed
| JsonRaises (e : Exception).

(** How [requests.post] ends: a response with its status, or one of the
    [RequestException]s of a failed or timed-out transport. *)
Inductive PostOutcome :=
| Responded (status_code : nat) (json : JsonOutcome)
| PostRaises.

(** The call [requests.post(upload_url, data=payload, files=files, timeout=15)]. *)
Record Request := {
  url : string;
  data_username : string;
  data_timestamp : string;
  files_image_name : string;
  files_image_content : list byte;
  files_image_type : string;
  timeout : nat
}.

Inductive Line :=
| Hold_detected (threshold : Q) (user : string)
| Uploaded_successfully
| Error_uploading
| Unexpected_error.

(** What a run of the uploader leaves: the requests it sent, the lines it
    printed, and the exception that left it, if any. *)
Record Upload := {
  requests : list Request;
  printed : list Line;
  raised : option Exception
}.

Definition upload_url (cfg : Config) : string :=
  replace "\" "/" (os_path_join (server_address cfg) "api/upload").

(** [response.raise_for_status()] raises for the 4xx and 5xx statuses. *)
Definition raise_for_status (status_code : nat) : bool :=
  ((400 <=? status_code) && (status_code <? 600))%nat.

(** The [try] block: the requests sent, the lines printed and the exception
    that ended it.  [now_iso] is [datetime.now().isoformat()]. *)
Definition try_block (cfg : Config) (now_iso : string)
    (grab : GrabOutcome) (post : PostOutcome)
    : list Request * list Line * option Exception :=
  match grab with
  | GrabRaises => ([], [], Some OtherException)
  | Grabbed png =>
      let request :=
        {| url := upload_url cfg;
           data_username := username cfg;
           data_timestamp := now_iso;
           files_image_name := "screenshot.png";
           files_image_content := png;
           files_image_type := "image/png";
           timeout := 15 |} in
      match post with
      | PostRaises => ([request], [], Some RequestException)
      | Responded status_code json =>
          if raise_for_status status_code then ([request], [], Some RequestException)
          else
            match json with
            | JsonRaises e => ([request], [], Some e)
            | JsonParsed => ([request], [Uploaded_successfully], None)
            end
      end
  end.

(** [take_screenshot_and_upload()] *)
Definition take_screenshot_and_upload (cfg : Config) (now_iso : string)
    (grab : GrabOutcome) (post : PostOutcome) : Upload :=
  let hold := Hold_detected (click_time cfg) (username cfg) in
  let '(sent, lines, exc) := try_block cfg now_iso grab post in
  match exc with
  | None =>
      {| requests := sent; printed := hold :: lines; raised := None |}
  | Some RequestException =>
      {| requests := sent; printed := (hold :: lines ++ [Error_uploading])%list;
         raised := None |}
  | Some OtherException =>
      {| requests := sent; printed := (hold :: lines ++ [Unexpected_error])%list;
         raised := None |}
  end.

(** The server's route run on a request the uploader sent; [requests]
    sends the content type it was given with the image part. *)
Definition handle_request (r : Request)
    (now_name now_mark : Server.datetime) (w : Server.WriteOutcome)
    (s : Server.ServerState) : Server.Outcome :=
  Server.app_post_api_upload (data_username r) (data_timestamp r)
    {| Server.part_filename := files_image_name r;
       Server.part_content_type := Some (files_image_type r);
       Server.part_file := files_image_content r |}
    now_name now_mark w s.

(** *** Shutdown *)

(** What [main] has running, the flag the tray menu sets, and whether a call
    of [check_for_shutdown] is waiting on the timer. *)
Record App := {
  SHUTDOWN_EVENT : bool;
  mouse_listener_running : bool;
  tray_icon_running : bool;
  root_tk_alive : bool;
  check_scheduled : bool
}.

(** [main] as it enters [root_tk.mainloop()]. *)
Definition main_started : App :=
  {| SHUTDOWN_EVENT := false; mouse_listener_running := true;
     tray_icon_running := true; root_tk_alive := true; check_scheduled := true |}.

Definition on_exit_clicked (a : App) : App :=
  {| SHUTDOWN_EVENT := true; mouse_listener_running := mouse_listener_running a;
     tray_icon_running := tray_icon_running a; root_tk_alive := root_tk_alive a;
     check_scheduled := check_scheduled a |}.

(** [check_for_shutdown()], entered when its timer fires. *)
Definition check_for_shutdown (a : App) : App :=
  if SHUTDOWN_EVENT a then
    {| SHUTDOWN_EVENT := true; mouse_listener_running := false;
       tray_icon_running := false; root_tk_alive := false; check_scheduled := false |}
  else
    {| SHUTDOWN_EVENT := false; mouse_listener_running := mouse_listener_running a;
       tray_icon_running := tray_icon_running a; root_tk_alive := root_tk_alive a;
       check_scheduled := true |}.

Inductive AppEvent :=
| exit_clicked
| timer_fires.

(** The timer runs a scheduled call only while the root window lives. *)
Definition app_step (e : AppEvent) (a : App) : App :=
  match e with
  | exit_clicked => on_exit_clicked a
  | timer_fires =>
      if check_scheduled a && root_tk_alive a then check_for_shutdown a else a
  end.

Definition app_run (events : list AppEvent) (a : App) : App :=
  foldl (λ a e, app_step e a) a events.

#[global] Instance AppEvent_eq_dec : EqDecision AppEvent.
Proof. solve_decision. Defined.

(** The application once the menu's exit entry was chosen, and once the
    check that follows has run. *)
Definition exit_requested : App := on_exit_clicked main_started.
Definition shut_down : App := check_for_shutdown exit_requested.

(** Whether a press is waiting for its release. *)
Definition pending (g : Globals) : nat :=
  match left_button_press_time g with
  | Some _ => 1
  | None => 0
  end.

(** A stand-in for [float] on the texts the worked instances type in. *)
Definition float_of_sample (text : string) : option Q :=
  if String.eqb text "2.5" then Some (5 # 2)%Q
  else if String.eqb text "0" then Some 0%Q
  else if String.eqb text "-1" then Some (-1 # 1)%Q
  else None.

(** A run of events: a press, a dialog that sets 2.5 seconds, a right
    click, and the release three seconds after the press. *)
Definition sample_events : list Event :=
  [Click 10 10 left true 100; Configure None None (Some "2.5");
   Click 10 10 right true 101; Click 10 10 left false 103].

End ClientApp.

(** ** The rest of the server: the delete button *)

Module Gallery.
Import Py Server.

(** The notices a handler makes: the [gr.Warning] and [gr.Info] it calls and
    the [gr.Error] it constructs. *)
Inductive Toast :=
| gr_Warning (message : string)
| gr_Info (message : string)
| gr_Error (message : string).

(** [handle_delete_batch(username)] *)
Definition handle_delete_batch (username : string) (now : datetime)
    (rm : RmtreeOutcome) (s : ServerState)
    : ServerState * list Toast * Result Outputs :=
  if String.eqb username "" || bool_decide (username = ALL_USERS_OPTION) then
    (s, [gr_Warning "请选择一个具体的用户进行批量删除！"], update_ui_components username s)
  else
    let '(s', deleted) := delete_user_images username now rm s in
    if deleted then
      (s', [gr_Info ("用户 '" ++ username ++ "' 的所有图片已删除！")],
       update_ui_components ALL_USERS_OPTION s')
    else
      (s', [gr_Error ("批量删除用户 '" ++ username ++ "' 的图片失败！")],
       update_ui_components username s').

(** A reading [datetime.now()] can give: every field in its range. *)
Definition valid_datetime (d : datetime) : Prop :=
  (1 ≤ year d ≤ 9999 ∧ 1 ≤ month d ≤ 12 ∧ 1 ≤ day d ≤ 31 ∧
   hour d < 24 ∧ minute d < 60 ∧ second d < 60 ∧ microsecond d < 1000000)%N.

(** A decimal numeral that starts with a digit other than zero. *)
Definition leading_digit_nonzero (d : Decimal.uint) : Prop :=
  match d with
  | Decimal.Nil | Decimal.D0 _ => False
  | _ => True
  end.

(** A name without a path separator. *)
Definition no_separator (name : string) : Prop := rfind "/" name = -1.

(** A name of one directory entry, the kind [os.listdir] returns: not empty,
    not [.] or [..], without separator or NUL byte, at most 255 bytes long.
    Joined to a directory it denotes the entry of that name and nothing
    else. *)
Definition path_component (name : string) : Prop :=
  name ≠ "" ∧ name ≠ "." ∧ name ≠ ".." ∧
  rfind "/" name = -1 ∧ rfind "000" name = -1 ∧
  (String.length name ≤ 255)%nat.

(** The names [os.listdir] yields for the directory of [user], whatever
    their extension; none when [user] is no directory. *)
Definition stored_names (fs : Storage) (user : string) : list string :=
  match entries fs !! user with
  | Some (Directory files) => (map_to_list files).*1
  | _ => []
  end.

(** The path under which the file [name] of [user] is listed. *)
Definition path_of (user name : string) : string :=
  os_path_join (os_path_join UPLOAD_DIR user) name.

End Gallery.

(** * Facts about strings and paths *)

Section PyStrings.
Import Py.

Lemma str_app_cons a (s t : string) : String a s ++ t = String a (s ++ t).
Proof. reflexivity. Qed.

Lemma str_app_nil_l (s : string) : "" ++ s = s.
Proof. reflexivity. Qed.

Lemma str_app_assoc (a b c : string) : a ++ b ++ c = (a ++ b) ++ c.
Proof. induction a as [|x a IH]; [done|]. rewrite !str_app_cons. by rewrite IH. Qed.

Lemma str_length_app (a b : string) :
  String.length (a ++ b) = (String.length a + String.length b)%nat.
Proof. induction a as [|c a IH]; [done|]. rewrite str_app_cons. cbn. by rewrite IH. Qed.

Lemma rfind_bounds c s : -1 ≤ rfind c s < Z.of_nat (String.length s).
Proof.
  induction s as [|a s IH]; cbn [rfind String.length]; [lia|].
  destruct (0 <=? rfind c s) eqn:E; [lia|].
  destruct (Ascii.eqb a c); lia.
Qed.

Lemma rfind_app c (a b : string) :
  rfind c (a ++ b) =
    if 0 <=? rfind c b then Z.of_nat (String.length a) + rfind c b else rfind c a.
Proof.
  induction a as [|x a IH].
  - rewrite str_app_nil_l. cbn. pose proof (rfind_bounds c b).
    destruct (0 <=? rfind c b) eqn:E; lia.
  - rewrite str_app_cons. cbn [rfind String.length]. rewrite IH.
    destruct (0 <=? rfind c b) eqn:E; [|done].
    assert ((0 <=? Z.of_nat (String.length a) + rfind c b) = true) as -> by lia.
    lia.
Qed.

Lemma rfind_endswith c s : endswith c s = true → rfind c s = Z.of_nat (String.length s) - 1.
Proof.
  induction s as [|a s IH]; [done|].
  cbn [endswith rfind String.length]. destruct s as [|b s].
  - intros ->. cbn. lia.
  - intros H. specialize (IH H). rewrite IH.
    cbn [String.length]. 
    assert ((0 <=? Z.of_nat (S (String.length s)) - 1) = true) as -> by lia. lia.
Qed.

Lemma endswith_app_one c (a : string) : endswith c (a ++ String c "") = true.
Proof.
  induction a as [|x a IH]; [cbn; apply Ascii.eqb_refl|].
  rewrite str_app_cons. cbn [endswith]. destruct (a ++ String c "") eqn:E; [|done].
  by destruct a.
Qed.

Lemma get_app_r (a b : string) i :
  String.get (String.length a + i) (a ++ b) = String.get i b.
Proof. induction a as [|x a IH]; [done|]. rewrite str_app_cons. cbn. apply IH. Qed.

Lemma drop_app_r (a b : string) i :
  drop (String.length a + i) (a ++ b) = drop i b.
Proof. induction a as [|x a IH]; [done|]. rewrite str_app_cons. cbn. apply IH. Qed.

Lemma splitext_scan_app (a b : string) i n :
  splitext_scan (a ++ b) (String.length a + i) n = splitext_scan b i n.
Proof.
  revert i. induction n as [|n IH]; intros i; [done|].
  cbn [splitext_scan]. rewrite get_app_r.
  destruct (String.get i b) as [c|]; [|done].
  destruct (Ascii.eqb c "."); [|done].
  rewrite <- IH. f_equal. lia.
Qed.

(** Only what follows the last separator decides the extension. *)
Lemma splitext_ext_app (pre f : string) :
  pre = "" ∨ endswith "/" pre = true →
  (os_path_splitext (pre ++ f)).2 = (os_path_splitext f).2.
Proof.
  intros Hpre.
  assert (rfind "/" (pre ++ f) = Z.of_nat (String.length pre) + rfind "/" f) as Hsep.
  { rewrite rfind_app. pose proof (rfind_bounds "/" f).
    destruct (0 <=? rfind "/" f) eqn:E; [done|].
    destruct Hpre as [->|Hend]; [cbn; lia|].
    rewrite (rfind_endswith _ _ Hend). lia. }
  unfold os_path_splitext. rewrite Hsep, (rfind_app "." pre f).
  pose proof (rfind_bounds "/" f) as Hb1. pose proof (rfind_bounds "." f) as Hb2.
  pose proof (rfind_bounds "." pre) as Hb3.
  destruct (0 <=? rfind "." f) eqn:Edot.
  - assert ((Z.of_nat (String.length pre) + rfind "." f >?
             Z.of_nat (String.length pre) + rfind "/" f) = (rfind "." f >? rfind "/" f)) as ->.
    { destruct (rfind "." f >? rfind "/" f) eqn:E; lia. }
    destruct (rfind "." f >? rfind "/" f) eqn:Egt; [|done].
    replace (Z.to_nat (Z.of_nat (String.length pre) + rfind "/" f + 1))
      with (String.length pre + Z.to_nat (rfind "/" f + 1))%nat by lia.
    replace (Z.of_nat (String.length pre) + rfind "." f
             - (Z.of_nat (String.length pre) + rfind "/" f + 1))
      with (rfind "." f - (rfind "/" f + 1)) by lia.
    rewrite splitext_scan_app.
    destruct (splitext_scan _ _ _); [|done]. cbn [snd].
    replace (Z.to_nat (Z.of_nat (String.length pre) + rfind "." f))
      with (String.length pre + Z.to_nat (rfind "." f))%nat by lia.
    apply drop_app_r.
  - assert ((rfind "." f >? rfind "/" f) = false) as -> by lia.
    assert ((rfind "." pre >? Z.of_nat (String.length pre) + rfind "/" f) = false) as ->; [|done].
    destruct Hpre as [->|Hend]; [cbn in *; lia|]. lia.
Qed.

Lemma splitext_ext_join (d f : string) :
  (os_path_splitext (os_path_join d f)).2 = (os_path_splitext f).2.
Proof.
  unfold os_path_join. destruct (startswith "/" f); [done|].
  destruct (String.eqb_spec d "") as [->|Hne]; cbn [orb].
  - apply splitext_ext_app. by left.
  - destruct (endswith "/" d) eqn:E.
    + apply splitext_ext_app. by right.
    + change (d ++ "/" ++ f) with (d ++ String "/" "" ++ f).
      rewrite str_app_assoc. apply splitext_ext_app. right. apply endswith_app_one.
Qed.

(** The extension is empty or runs from the last dot to the end. *)
Lemma splitext_ext_cases (p : string) :
  (os_path_splitext p).2 = "" ∨
  (0 ≤ rfind "." p ∧ (os_path_splitext p).2 = drop (Z.to_nat (rfind "." p)) p).
Proof.
  unfold os_path_splitext. pose proof (rfind_bounds "/" p).
  destruct (rfind "." p >? rfind "/" p) eqn:E; [|by left].
  destruct (splitext_scan _ _ _); [|by left].
  right. split; [lia|done].
Qed.

Lemma rfind_cons_absent c a (s : string) :
  a ≠ c → rfind c s = -1 → rfind c (String a s) = -1.
Proof.
  intros Hne Hs. cbn [rfind]. rewrite Hs. change (0 <=? -1) with false. cbv iota.
  by destruct (Ascii.eqb_spec a c).
Qed.

Lemma rfind_string_of_uint c d :
  Ascii.is_nat c = None → rfind c (NilEmpty.string_of_uint d) = -1.
Proof.
  intros Hc. induction d; cbn [NilEmpty.string_of_uint]; [done|..];
    (apply rfind_cons_absent; [by intros <-|done]).
Qed.

Lemma rfind_replicate c a n :
  a ≠ c → rfind c (string_of_list_ascii (replicate n a)) = -1.
Proof.
  intros Hne. induction n as [|n IH]; [done|].
  cbn [replicate string_of_list_ascii]. by apply rfind_cons_absent.
Qed.

Lemma rfind_app_absent c (a b : string) :
  rfind c a = -1 → rfind c b = -1 → rfind c (a ++ b) = -1.
Proof. intros Ha Hb. rewrite rfind_app, Hb. by cbn. Qed.

Lemma rfind_zero_pad c w n :
  Ascii.is_nat c = None → rfind c (Server.zero_pad w n) = -1.
Proof.
  intros Hc. unfold Server.zero_pad. apply rfind_app_absent.
  - apply rfind_replicate. by intros <-.
  - unfold NilZero.string_of_uint.
    destruct (N.to_uint n) eqn:E; try (by apply rfind_string_of_uint).
    apply rfind_cons_absent; [by intros <-|done].
Qed.

Lemma rfind_strftime c d :
  Ascii.is_nat c = None → c ≠ "_"%char → rfind c (Server.strftime d) = -1.
Proof.
  intros Hc Hu. unfold Server.strftime.
  repeat (apply rfind_app_absent; [by apply rfind_zero_pad|]).
  apply rfind_app_absent; [by apply rfind_cons_absent|].
  repeat (apply rfind_app_absent; [by apply rfind_zero_pad|]).
  by apply rfind_zero_pad.
Qed.
End PyStrings.

(** * Facts about sorting and the catalogue *)

Section SortedFacts.
Import Py.
Context {A : Type} (key : A → string) (reverse : bool).

Lemma ltb_le (a b : string) : String.ltb a b = true → String.le a b.
Proof.
  unfold String.ltb, String.le, String.leb. by destruct (String.compare a b).
Qed.

Lemma not_ltb_le (a b : string) : String.ltb a b = false → String.le b a.
Proof.
  unfold String.ltb, String.le, String.leb. rewrite (String.compare_antisym b a).
  by destruct (String.compare a b).
Qed.

Lemma comes_before_in_order y x :
  comes_before key reverse y x = true → in_order key reverse y x.
Proof. unfold comes_before, in_order. destruct reverse; apply ltb_le. Qed.

Lemma not_comes_before_in_order y x :
  comes_before key reverse y x = false → in_order key reverse x y.
Proof. unfold comes_before, in_order. destruct reverse; apply not_ltb_le. Qed.

Lemma in_order_trans x y z :
  in_order key reverse x y → in_order key reverse y z → in_order key reverse x z.
Proof.
  unfold in_order. destruct reverse; intros H1 H2; by etrans.
Qed.

Lemma insert_sorted_perm x l : insert_sorted key reverse x l ≡ₚ x :: l.
Proof.
  induction l as [|y ys IH]; [done|]. cbn [insert_sorted].
  destruct (comes_before key reverse y x); [|done].
  rewrite IH. apply Permutation_swap.
Qed.

Lemma sorted_perm l : sorted key reverse l ≡ₚ l.
Proof.
  induction l as [|x l IH]; [done|].
  cbn [sorted foldr]. fold (sorted key reverse l).
  by rewrite insert_sorted_perm, IH.
Qed.

Lemma insert_sorted_StronglySorted x l :
  StronglySorted (in_order key reverse) l →
  StronglySorted (in_order key reverse) (insert_sorted key reverse x l).
Proof.
  induction 1 as [|y ys Hys IH Hy]; cbn [insert_sorted].
  - repeat constructor.
  - destruct (comes_before key reverse y x) eqn:E.
    + constructor; [done|]. rewrite insert_sorted_perm.
      constructor; [by apply comes_before_in_order|done].
    + apply not_comes_before_in_order in E.
      constructor; [by constructor|]. constructor; [done|].
      eapply Forall_impl; [exact Hy|]. intros z Hz. by eapply in_order_trans.
Qed.

Lemma sorted_StronglySorted l : StronglySorted (in_order key reverse) (sorted key reverse l).
Proof.
  induction l as [|x l IH]; [constructor|].
  cbn [sorted foldr]. by apply insert_sorted_StronglySorted.
Qed.

Lemma elem_of_sorted x l : x ∈ sorted key reverse l ↔ x ∈ l.
Proof. by rewrite sorted_perm. Qed.
End SortedFacts.

Section Catalogue.
Import Py Server.
Implicit Types (fs : option (gmap string Entry)) (u f p : string).

Lemma isdir_lookup fs u :
  os_path_isdir fs u = true ↔ ∃ files, entries fs !! u = Some (Directory files).
Proof.
  unfold os_path_isdir. destruct (entries fs !! u) as [[files|c]|];
    (split; [try done; by eexists|]); try done; by intros [? [=]].
Qed.

Lemma elem_of_get_all_users fs u : u ∈ get_all_users fs ↔ os_path_isdir fs u = true.
Proof.
  destruct fs as [root|]; cbn [get_all_users].
  - rewrite elem_of_sorted, list_elem_of_filter, list_elem_of_fmap.
    split; [intros [Hdir _]; by apply Is_true_true|].
    intros Hdir. split; [by apply Is_true_true|].
    apply isdir_lookup in Hdir as [files Hu]. exists (u, Directory files).
    split; [done|]. by apply elem_of_map_to_list.
  - unfold os_path_isdir. cbn. rewrite lookup_empty. split; [by intros ?%elem_of_nil|done].
Qed.

Lemma NoDup_get_all_users fs : NoDup (get_all_users fs).
Proof.
  destruct fs as [root|]; cbn [get_all_users]; [|constructor].
  rewrite sorted_perm. apply NoDup_filter, NoDup_fst_map_to_list.
Qed.

Lemma elem_of_user_images fs u p :
  p ∈ user_images fs u ↔
  ∃ files f, entries fs !! u = Some (Directory files) ∧ is_Some (files !! f) ∧
             has_image_extension f ∧ p = os_path_join (os_path_join UPLOAD_DIR u) f.
Proof.
  unfold user_images. destruct (entries fs !! u) as [[files|c]|] eqn:E.
  - rewrite list_elem_of_fmap. split.
    + intros (f & -> & [Himg Hf]%list_elem_of_filter). exists files, f.
      split_and!; [done| |done|done].
      apply list_elem_of_fmap in Hf as ([f' x] & -> & Hfx%elem_of_map_to_list). by exists x.
    + intros (files' & f & [= <-] & [x Hx] & Himg & ->). exists f. split; [done|].
      apply list_elem_of_filter. split; [done|]. apply list_elem_of_fmap.
      exists (f, x). split; [done|]. by apply elem_of_map_to_list.
  - split; [by intros ?%elem_of_nil|]. by intros (? & ? & [=] & _).
  - split; [by intros ?%elem_of_nil|]. by intros (? & ? & [=] & _).
Qed.

Lemma for_each_user_dirs fs users image_paths :
  (∀ u, u ∈ users → os_path_isdir fs u = true) →
  for_each_user fs users image_paths
    = Ok (image_paths ++ mjoin (user_images fs <$> users))%list.
Proof.
  revert image_paths. induction users as [|u users IH]; intros image_paths Hdirs.
  - cbn. by rewrite app_nil_r.
  - cbn [for_each_user]. 
    destruct (proj1 (isdir_lookup fs u)) as [files Hu]; [apply Hdirs; by left|].
    unfold os_listdir. rewrite Hu. cbn [bind].
    rewrite IH by (intros; apply Hdirs; by right).
    rewrite fmap_cons. cbn [mjoin list_join]. unfold append_images, user_images at 2. rewrite Hu.
    by rewrite <- app_assoc.
Qed.

Lemma sentinel_nonempty : String.eqb ALL_USERS_OPTION "" = false.
Proof. reflexivity. Qed.

Lemma get_user_images_all fs :
  get_user_images fs ALL_USERS_OPTION
    = Ok (sorted os_path_basename true (mjoin (user_images fs <$> get_all_users fs))).
Proof.
  unfold get_user_images. rewrite bool_decide_eq_true_2 by done.
  rewrite for_each_user_dirs by (intros u; apply elem_of_get_all_users). done.
Qed.

Lemma get_user_images_user fs u :
  u ≠ ALL_USERS_OPTION → u ≠ "" →
  get_user_images fs u =
    match entries fs !! u with
    | Some (RegularFile _) => Raise NotADirectoryError
    | _ => Ok (sorted os_path_basename true (user_images fs u))
    end.
Proof.
  intros Hall Hne. unfold get_user_images. rewrite bool_decide_eq_false_2 by done.
  destruct (String.eqb_spec u "") as [|_]; [done|]. cbn [negb].
  unfold os_path_exists, os_listdir, user_images, append_images.
  by destruct (entries fs !! u) as [[files|c]|].
Qed.

Lemma get_user_images_empty fs : get_user_images fs "" = Ok [].
Proof. reflexivity. Qed.

(** Whatever a listing holds is an image of some user. *)
Lemma get_user_images_sound fs username l p :
  get_user_images fs username = Ok l → p ∈ l → ∃ u, p ∈ user_images fs u.
Proof.
  destruct (decide (username = ALL_USERS_OPTION)) as [->|Hall].
  - rewrite get_user_images_all. intros [= <-]. rewrite elem_of_sorted.
    intros (l' & Hp & (u & -> & _)%list_elem_of_fmap)%list_elem_of_join. by exists u.
  - destruct (decide (username = "")) as [->|Hne].
    + rewrite get_user_images_empty. by intros [= <-] ?%elem_of_nil.
    + rewrite get_user_images_user by done.
      destruct (entries fs !! username) as [[files|c]|]; [|done|];
        intros [= <-]; rewrite elem_of_sorted; by exists username.
Qed.
End Catalogue.

(** * Properties of the gesture detector *)

Section Detector.
Import Client.

Lemma press_sets_time x y now g :
  press x y now g = ({| config := config g; left_button_press_time := Some now |}, []).
Proof. reflexivity. Qed.

Lemma release_pending x y now g t :
  left_button_press_time g = Some t →
  release x y now g =
    ({| config := config g; left_button_press_time := None |},
     if Qle_bool (click_time (config g)) (now - t)
     then [Thread_start take_screenshot_and_upload] else []).
Proof.
  intros Ht. unfold release, on_click. rewrite Ht.
  by destruct (Qle_bool _ _).
Qed.

Lemma other_button_ignored x y b pressed now g :
  b ≠ left → on_click x y b pressed now g = (g, []).
Proof. by destruct b. Qed.

Lemma Qle_bool_false (a b : Q) : (b < a)%Q → Qle_bool a b = false.
Proof.
  intros Hlt. destruct (Qle_bool a b) eqn:E; [|done].
  apply Qle_bool_iff in E. exfalso. exact (Qlt_not_le _ _ Hlt E).
Qed.

(** C3. A press followed, [d] seconds later, by a release starts exactly one
    upload thread when [d] reaches the [click_time] the configuration holds
    at the release, also when the two are equal, and none below it.  The
    configuration may have been rewritten since the press. *)
Theorem hold_triggers_iff_threshold_reached
    (g : Globals) (x y x' y' : Z) (t0 t1 : Q) (cfg' : Config) :
  let pressed := press x y t0 g in
  let released := release x' y' t1 (with_config cfg' pressed.1) in
  let d := (t1 - t0)%Q in
  pressed.2 = [] ∧
  ((click_time cfg' <= d)%Q →
     released.2 = [Thread_start take_screenshot_and_upload]) ∧
  ((d < click_time cfg')%Q → released.2 = []) ∧
  left_button_press_time released.1 = None.
Proof.
  cbn zeta. rewrite press_sets_time. cbn [fst snd].
  rewrite (release_pending _ _ _ _ t0) by reflexivity.
  cbn [fst snd with_config config left_button_press_time].
  repeat split.
  - intros Hle. apply Qle_bool_iff in Hle. by rewrite Hle.
  - intros Hlt. by rewrite (Qle_bool_false _ _ Hlt).
Qed.

Lemma hold_triggers_iff_threshold_reached_witness :
  ((click_time default_config <= 10 - 6)%Q ∧
   (release 0 0 10 (with_config default_config (press 0 0 6 initial_globals).1)).2
     = [Thread_start take_screenshot_and_upload]) ∧
  ((7 - 6 < click_time default_config)%Q ∧
   (release 0 0 7 (with_config default_config (press 0 0 6 initial_globals).1)).2 = []).
Proof.
  split; split.
  - by vm_compute.
  - apply (hold_triggers_iff_threshold_reached initial_globals 0 0 0 0 6 10 default_config).
    by vm_compute.
  - by vm_compute.
  - apply (hold_triggers_iff_threshold_reached initial_globals 0 0 0 0 6 7 default_config).
    by vm_compute.
Defined.

(** C7. A release while no press is pending changes nothing and starts
    nothing; [on_click] is a total function, so there is no failure to
    speak of. *)
Theorem release_without_press_is_noop (x y : Z) (now : Q) (g : Globals) :
  left_button_press_time g = None → release x y now g = (g, []).
Proof. intros Hnone. unfold release, on_click. by rewrite Hnone. Qed.

Lemma release_without_press_is_noop_witness :
  left_button_press_time initial_globals = None ∧
  release 3 4 100 initial_globals = (initial_globals, []).
Proof.
  split; [reflexivity|].
  apply (release_without_press_is_noop 3 4 100 initial_globals). reflexivity.
Defined.

(** C8. Of two presses in a row the second replaces the pending time: the
    globals are those the second press alone would leave, the release that
    follows is judged on the time since the second press, and once it is
    consumed nothing is left pending from the first. *)
Theorem second_press_replaces_pending
    (g : Globals) (x1 y1 x2 y2 x3 y3 x4 y4 : Z) (t1 t2 t3 t4 : Q) :
  let g1 := (press x1 y1 t1 g).1 in
  let g2 := (press x2 y2 t2 g1).1 in
  let released := release x3 y3 t3 g2 in
  g2 = (press x2 y2 t2 g).1 ∧
  left_button_press_time g2 = Some t2 ∧
  released.2 = (if Qle_bool (click_time (config g)) (t3 - t2)
                then [Thread_start take_screenshot_and_upload] else []) ∧
  release x4 y4 t4 released.1 = (released.1, []).
Proof.
  cbn zeta. rewrite !press_sets_time. cbn [fst snd config].
  rewrite (release_pending _ _ _ _ t2) by reflexivity.
  cbn [fst snd config]. repeat split.
Qed.

End Detector.

(** * Properties of the catalogue and of the upload route *)

Section Listing.
Import Py Server.
Implicit Types (fs : option (gmap string Entry)) (u f p : string).

Lemma user_images_stored_names fs u :
  user_images fs u
  = Gallery.path_of u <$> filter has_image_extension (Gallery.stored_names fs u).
Proof.
  unfold user_images, Gallery.stored_names, Gallery.path_of.
  by destruct (entries fs !! u) as [[files|c]|].
Qed.

Lemma elem_of_stored_names fs u f :
  f ∈ Gallery.stored_names fs u ↔ is_Some (read_file fs u f).
Proof.
  unfold Gallery.stored_names, read_file.
  destruct (entries fs !! u) as [[files|c]|].
  - rewrite list_elem_of_fmap. split.
    + intros ([k v] & -> & Hkv%elem_of_map_to_list). by exists v.
    + intros [v Hv]. exists (f, v). split; [done|]. by apply elem_of_map_to_list.
  - split; [by intros ?%elem_of_nil|by intros [? ?]].
  - split; [by intros ?%elem_of_nil|by intros [? ?]].
Qed.

Lemma elem_of_user_images_read fs u p :
  p ∈ user_images fs u ↔
  ∃ f, is_Some (read_file fs u f) ∧ has_image_extension f ∧ p = Gallery.path_of u f.
Proof.
  rewrite user_images_stored_names, list_elem_of_fmap. split.
  - intros (f & -> & [Himg Hf]%list_elem_of_filter). exists f.
    by rewrite <- elem_of_stored_names.
  - intros (f & Hf & Himg & ->). exists f. split; [done|].
    apply list_elem_of_filter. by rewrite elem_of_stored_names.
Qed.

(** C6, amended.  What [get_user_images] returns is decided by the names in
    the user directories, not by what was uploaded as an image: with the
    all-users sentinel it returns, for every user directory, the paths of the
    stored files whose name has an image extension, and with the name of a
    user (one path component that is not a plain file under [UPLOAD_DIR]) the
    paths of that user's stored files with such an extension, none when there
    is no such directory.  A stored file with any other extension is left
    out.  Both lists run by basename, the stored name, from high to low. *)
Theorem listing_is_sorted_union fs :
  (∃ l, get_user_images fs ALL_USERS_OPTION = Ok l ∧
        l ≡ₚ mjoin ((λ u, Gallery.path_of u
                            <$> filter has_image_extension (Gallery.stored_names fs u))
                      <$> get_all_users fs) ∧
        (∀ p, p ∈ l ↔ ∃ u f, is_Some (read_file fs u f) ∧ has_image_extension f ∧
                             p = Gallery.path_of u f) ∧
        StronglySorted (in_order os_path_basename true) l) ∧
  (∀ u, Gallery.path_component u → u ≠ ALL_USERS_OPTION →
        (∀ c, entries fs !! u ≠ Some (RegularFile c)) →
        ∃ l, get_user_images fs u = Ok l ∧
             l ≡ₚ Gallery.path_of u
                    <$> filter has_image_extension (Gallery.stored_names fs u) ∧
             (∀ p, p ∈ l ↔ ∃ f, is_Some (read_file fs u f) ∧ has_image_extension f ∧
                                p = Gallery.path_of u f) ∧
             StronglySorted (in_order os_path_basename true) l).
Proof.
  split.
  - eexists. split; [apply get_user_images_all|].
    split; [|split; [|apply sorted_StronglySorted]].
    + rewrite sorted_perm. apply reflexive_eq. f_equal.
      apply list_fmap_ext. intros _ u _. apply user_images_stored_names.
    + intros p. rewrite elem_of_sorted, list_elem_of_join. split.
      * intros (l' & Hp & (u & -> & Hu)%list_elem_of_fmap).
        apply elem_of_user_images_read in Hp as (f & Hf). by exists u, f.
      * intros (u & f & Hf & Himg & ->). exists (user_images fs u). split.
        -- apply elem_of_user_images_read. by exists f.
        -- apply list_elem_of_fmap. exists u. split; [done|].
           apply elem_of_get_all_users, isdir_lookup.
           unfold read_file in Hf.
           destruct (entries fs !! u) as [[files|c]|]; [by eexists|by destruct Hf..].
  - intros u (Hne & _) Hall Hreg.
    assert (get_user_images fs u = Ok (sorted os_path_basename true (user_images fs u))) as Hl.
    { rewrite get_user_images_user by done.
      destruct (entries fs !! u) as [[files|c]|] eqn:E; [done| |done].
      by destruct (Hreg c). }
    eexists. split; [exact Hl|].
    split; [|split; [|apply sorted_StronglySorted]].
    + by rewrite sorted_perm, user_images_stored_names.
    + intros p. by rewrite elem_of_sorted, elem_of_user_images_read.
Qed.

Lemma listing_is_sorted_union_witness :
  ∃ l, get_user_images Sample.two_users "bob" = Ok l ∧
       l ≡ₚ Gallery.path_of "bob"
              <$> filter has_image_extension (Gallery.stored_names Sample.two_users "bob") ∧
       (∀ p, p ∈ l ↔ ∃ f, is_Some (read_file Sample.two_users "bob" f) ∧
                          has_image_extension f ∧ p = Gallery.path_of "bob" f) ∧
       StronglySorted (in_order os_path_basename true) l.
Proof.
  apply (listing_is_sorted_union Sample.two_users).
  - unfold Gallery.path_component. compute_done.
  - done.
  - intros c. vm_compute. discriminate.
Defined.

(** C6 as worded does not hold: an upload that is accepted and stored under
    a name without image extension is returned neither by the listing of its
    user nor by the all-users listing. *)
Lemma stored_upload_without_image_extension_is_not_listed :
  let o := api_upload_image "carol" "2024-11-03T01:30:00" Sample.notes
             Sample.at_0130 Sample.at_0145 Written
             (Sample.serving Sample.two_users Sample.at_0130) in
  result o = Ok (JSONResponse 201
                   [("message", "图片上传成功");
                    ("server_path", "uploads/carol/20241103_013000250000_notes.txt")]) ∧
  read_file (storage (state_after o)) "carol" "20241103_013000250000_notes.txt"
    = Some (file Sample.notes) ∧
  get_user_images (storage (state_after o)) "carol" = Ok [] ∧
  get_user_images (storage (state_after o)) ALL_USERS_OPTION
    = Ok ["uploads/alice/2_z.gif"; "uploads/bob/2_b.png"; "uploads/bob/1_a.PNG"].
Proof. cbn zeta. split_and!; by vm_compute. Qed.

Lemma has_image_extension_join d f :
  has_image_extension (os_path_join d f) ↔ has_image_extension f.
Proof. unfold has_image_extension. by rewrite splitext_ext_join. Qed.

Lemma stored_name_extension ts name :
  rfind "." ts = -1 →
  (os_path_splitext (ts ++ "_" ++ name)).2 = "" ∨
  (os_path_splitext (ts ++ "_" ++ name)).2 = extension name.
Proof.
  intros Hts. destruct (splitext_ext_cases (ts ++ "_" ++ name)) as [?|[Hdot ->]]; [by left|].
  right. revert Hdot. rewrite str_app_assoc, rfind_app. unfold extension.
  destruct (0 <=? rfind "." name) eqn:E.
  - intros _.
    replace (Z.to_nat (Z.of_nat (String.length (ts ++ "_")) + rfind "." name))
      with (String.length (ts ++ "_") + Z.to_nat (rfind "." name))%nat by lia.
    apply drop_app_r.
  - rewrite (rfind_app_absent "." ts "_") by done. lia.
Qed.

Lemma makedirs_ok fs u fs1 :
  os_makedirs fs u = Ok fs1 →
  ∃ files, entries fs1 !! u = Some (Directory files) ∧
           (entries fs !! u = Some (Directory files) ∨
            entries fs !! u = None ∧ files = ∅) ∧
           ∀ u', u' ≠ u → entries fs1 !! u' = entries fs !! u'.
Proof.
  unfold os_makedirs. destruct (entries fs !! u) as [[files|c]|] eqn:E; [|done|].
  - intros [= <-]. exists files. by auto.
  - intros [= <-]. exists ∅. cbn [entries].
    rewrite lookup_insert_eq. split_and!; [done|by right|].
    intros u' Hne. by rewrite lookup_insert_ne.
Qed.

Lemma write_file_lookup fs u fname data files :
  entries fs !! u = Some (Directory files) →
  entries (write_file fs u fname data) !! u = Some (Directory (<[fname := data]> files)) ∧
  ∀ u', u' ≠ u → entries (write_file fs u fname data) !! u' = entries fs !! u'.
Proof.
  destruct fs as [root|]; cbn [entries write_file fmap option_fmap option_map].
  - intros Hu. split.
    + by rewrite lookup_alter_eq, Hu.
    + intros u' Hne. by rewrite lookup_alter_ne.
  - by rewrite lookup_empty.
Qed.

Lemma upload_unfold username timestamp image now_name now_mark w s fs1 :
  startswith "image/" (content_type image) = true →
  os_makedirs (storage s) username = Ok fs1 →
  api_upload_image username timestamp image now_name now_mark w s =
    let stored := strftime now_name ++ "_" ++ filename image in
    let filepath := os_path_join (os_path_join UPLOAD_DIR username) stored in
    match w with
    | Written =>
        {| state_after :=
             mark_updated now_mark
               (with_storage (write_file fs1 username stored (file image)) s);
           file_closed := true;
           result := Ok (JSONResponse 201
             [("message", "图片上传成功"); ("server_path", filepath)]) |}
    | OpenRaises =>
        {| state_after := with_storage fs1 s; file_closed := true;
           result := Raise OSError |}
    | CopyRaises n =>
        {| state_after :=
             with_storage (write_file fs1 username stored (List.firstn n (file image))) s;
           file_closed := true; result := Raise OSError |}
    end.
Proof. intros Hct Hmk. unfold api_upload_image. by rewrite Hct, Hmk. Qed.

Lemma makedirs_not_file fs u :
  (∀ c, entries fs !! u ≠ Some (RegularFile c)) → ∃ fs1, os_makedirs fs u = Ok fs1.
Proof.
  intros Hreg. unfold os_makedirs.
  destruct (entries fs !! u) as [[files|c]|]; [by eexists|by destruct (Hreg c)|by eexists].
Qed.

Lemma route_runs_handler username timestamp image declared now_name now_mark w s :
  username ≠ "" → timestamp ≠ "" → part_content_type image = Some declared →
  app_post_api_upload username timestamp image now_name now_mark w s
  = api_upload_image username timestamp
      {| filename := part_filename image; content_type := declared;
         file := part_file image |} now_name now_mark w s.
Proof.
  intros Hu Ht Hct. unfold app_post_api_upload. rewrite Hct.
  destruct (String.eqb_spec username "") as [|_]; [done|].
  by destruct (String.eqb_spec timestamp "") as [|_].
Qed.



End Listing.

Section Upload.
Import Py Server.
Implicit Types (fs : option (gmap string Entry)) (u f p : string).

Lemma empty_not_image_extension : lower "" ∉ image_extensions.
Proof. compute_done. Qed.

Lemma read_file_makedirs fs u fs1 u' f :
  os_makedirs fs u = Ok fs1 → read_file fs1 u' f = read_file fs u' f.
Proof.
  intros Hmk. destruct (makedirs_ok _ _ _ Hmk) as (files & H1 & Hold & Hother).
  unfold read_file. destruct (decide (u' = u)) as [->|Hne].
  - rewrite H1. destruct Hold as [->|[-> ->]]; [done|apply lookup_empty].
  - by rewrite Hother.
Qed.

Lemma read_file_write fs u fname data files u' f :
  entries fs !! u = Some (Directory files) →
  read_file (write_file fs u fname data) u' f =
    if decide (u' = u ∧ f = fname) then Some data else read_file fs u' f.
Proof.
  intros Hu. destruct (write_file_lookup fs u fname data files Hu) as [Hw Hother].
  unfold read_file. destruct (decide (u' = u)) as [->|Hne].
  - rewrite Hw, Hu. destruct (decide (f = fname)) as [->|Hf].
    + rewrite decide_True by done. apply lookup_insert_eq.
    + rewrite decide_False by (by intros [_ ?]). by apply lookup_insert_ne.
  - rewrite Hother by done. by rewrite decide_False by (by intros [? _]).
Qed.

(** C9. Every path a listing returns names a stored file whose extension,
    lower-cased, is one of the six image extensions.  A file that a successful
    upload stores although the extension of its original name is none of them
    is on disk, readable with the uploaded bytes, and in no listing; the
    upload itself never looked at the name. *)
Theorem only_image_extensions_are_listed :
  (∀ fs username l p,
     get_user_images fs username = Ok l → p ∈ l →
     has_image_extension p ∧
     ∃ u files f, entries fs !! u = Some (Directory files) ∧ is_Some (files !! f) ∧
                  has_image_extension f ∧
                  p = os_path_join (os_path_join UPLOAD_DIR u) f) ∧
  (∀ username timestamp image now_name now_mark w s r,
     let o := api_upload_image username timestamp image now_name now_mark w s in
     let stored := strftime now_name ++ "_" ++ filename image in
     result o = Ok r →
     lower (extension (filename image)) ∉ image_extensions →
     read_file (storage (state_after o)) username stored = Some (file image) ∧
     ∀ username' l,
       get_user_images (storage (state_after o)) username' = Ok l →
       os_path_join (os_path_join UPLOAD_DIR username) stored ∉ l).
Proof.
  assert (∀ fs username l p,
     get_user_images fs username = Ok l → p ∈ l →
     has_image_extension p ∧
     ∃ u files f, entries fs !! u = Some (Directory files) ∧ is_Some (files !! f) ∧
                  has_image_extension f ∧
                  p = os_path_join (os_path_join UPLOAD_DIR u) f) as Hlisted.
  { intros fs username l p Hl Hp.
    destruct (get_user_images_sound _ _ _ _ Hl Hp) as [u Hu].
    apply elem_of_user_images in Hu as (files & f & Hdir & Hf & Himg & ->).
    split; [by apply has_image_extension_join|]. by exists u, files, f. }
  split; [exact Hlisted|].
  intros username timestamp image now_name now_mark w s r. cbn zeta.
  intros Hok Hext.
  assert (¬ has_image_extension (strftime now_name ++ "_" ++ filename image)) as Hstored.
  { unfold has_image_extension.
    destruct (stored_name_extension (strftime now_name) (filename image)) as [-> | ->];
      [by apply rfind_strftime|apply empty_not_image_extension|done]. }
  revert Hok. unfold api_upload_image.
  destruct (startswith "image/" (content_type image)); cbn [negb]; [|done].
  destruct (os_makedirs (storage s) username) as [fs1|e] eqn:Hmk; [|done].
  destruct w; [|done..]. cbn. intros _.
  destruct (makedirs_ok _ _ _ Hmk) as (files & Hu & _). split.
  - rewrite (read_file_write _ _ _ _ files) by done. by rewrite decide_True.
  - intros username' l Hl Hin. apply Hstored.
    destruct (Hlisted _ _ _ _ Hl Hin) as [Himg _].
    by apply has_image_extension_join in Himg.
Qed.

Lemma only_image_extensions_are_listed_witness :
  has_image_extension "uploads/bob/2_b.png" ∧
  (read_file
     (storage (state_after
        (api_upload_image "carol" "2024-11-03T01:30:00" Sample.notes
           Sample.at_0130 Sample.at_0145 Written
           (Sample.serving Sample.two_users Sample.at_0130))))
     "carol" "20241103_013000250000_notes.txt" = Some [x68; x69]%byte ∧
   ∀ username' l,
     get_user_images
       (storage (state_after
          (api_upload_image "carol" "2024-11-03T01:30:00" Sample.notes
             Sample.at_0130 Sample.at_0145 Written
             (Sample.serving Sample.two_users Sample.at_0130)))) username' = Ok l →
     "uploads/carol/20241103_013000250000_notes.txt" ∉ l).
Proof.
  split.
  - apply (proj1 only_image_extensions_are_listed Sample.two_users "bob"
             ["uploads/bob/2_b.png"; "uploads/bob/1_a.PNG"]).
    + by vm_compute.
    + by left.
  - eapply (proj2 only_image_extensions_are_listed "carol" "2024-11-03T01:30:00"
             Sample.notes Sample.at_0130 Sample.at_0145 Written
             (Sample.serving Sample.two_users Sample.at_0130)).
    + reflexivity.
    + compute_done.
Defined.

Lemma listed_after_write fs u fname data files :
  entries fs !! u = Some (Directory files) →
  has_image_extension fname →
  ∃ l, get_user_images (write_file fs u fname data) ALL_USERS_OPTION = Ok l ∧
       os_path_join (os_path_join UPLOAD_DIR u) fname ∈ l.
Proof.
  intros Hu Himg. destruct (write_file_lookup fs u fname data files Hu) as [Hw _].
  eexists. split; [apply get_user_images_all|].
  rewrite elem_of_sorted, list_elem_of_join.
  exists (user_images (write_file fs u fname data) u). split.
  - apply elem_of_user_images. eexists _, fname. split_and!; [exact Hw| |done|done].
    rewrite lookup_insert_eq. by eexists.
  - apply list_elem_of_fmap. exists u. split; [done|].
    apply elem_of_get_all_users, isdir_lookup. by eexists.
Qed.

(** C2, amended.  For a user name that is one path component and an
    original file name without separator: when the write of an upload fails
    the I/O error leaves the handler (a server error) and no file but the
    target is touched.  The target is written in place under its final name:
    it is as it was when opening it failed, and otherwise holds the bytes that
    went out before the failure, a prefix of the upload, which the all-users
    listing returns when the stored name has an image extension. *)
Theorem failed_write_raises_leaving_at_most_a_prefix
    (username timestamp : string) (image : UploadFile)
    (now_name now_mark : datetime) (w : WriteOutcome) (s : ServerState) :
  Gallery.path_component username →
  Gallery.no_separator (filename image) →
  startswith "image/" (content_type image) = true →
  (∀ c, entries (storage s) !! username ≠ Some (RegularFile c)) →
  w ≠ Written →
  let o := api_upload_image username timestamp image now_name now_mark w s in
  let stored := strftime now_name ++ "_" ++ filename image in
  let filepath := os_path_join (os_path_join UPLOAD_DIR username) stored in
  result o = Raise OSError ∧ http_status (result o) = 500%nat ∧
  (∀ u f, u ≠ username ∨ f ≠ stored →
          read_file (storage (state_after o)) u f = read_file (storage s) u f) ∧
  match w with
  | CopyRaises n =>
      read_file (storage (state_after o)) username stored
        = Some (List.firstn n (file image)) ∧
      (has_image_extension stored →
       ∃ l, get_user_images (storage (state_after o)) ALL_USERS_OPTION = Ok l ∧
            filepath ∈ l)
  | _ =>
      read_file (storage (state_after o)) username stored
        = read_file (storage s) username stored
  end.
Proof.
  intros _ _ Hct Hreg Hw. cbn zeta. destruct (makedirs_not_file _ _ Hreg) as [fs1 Hmk].
  rewrite (upload_unfold _ _ _ _ _ _ _ fs1) by done. cbn zeta.
  destruct (makedirs_ok _ _ _ Hmk) as (files & Hu & _).
  destruct w as [| |n]; [done|..]; cbn [result state_after storage with_storage http_status].
  - split_and!; [done|done|..]; intros; by apply read_file_makedirs with username.
  - split_and!; [done|done|..].
    + intros u f Hne. rewrite (read_file_write _ _ _ _ files) by done.
      rewrite decide_False by (intros [-> ->]; by destruct Hne).
      by apply read_file_makedirs with username.
    + rewrite (read_file_write _ _ _ _ files) by done. by rewrite decide_True.
    + intros Himg. by apply listed_after_write with files.
Qed.

Lemma failed_write_raises_leaving_at_most_a_prefix_witness :
  read_file
    (storage (state_after
       (api_upload_image "carol" "2024-11-03T01:30:00" Sample.screenshot
          Sample.at_0130 Sample.at_0145 (CopyRaises 2)
          (Sample.serving Sample.two_users Sample.at_0130))))
    "carol" "20241103_013000250000_screenshot.png"
  = Some (List.firstn 2 (file Sample.screenshot)).
Proof.
  apply (failed_write_raises_leaving_at_most_a_prefix
           "carol" "2024-11-03T01:30:00" Sample.screenshot
           Sample.at_0130 Sample.at_0145 (CopyRaises 2)
           (Sample.serving Sample.two_users Sample.at_0130)).
  - unfold Gallery.path_component. compute_done.
  - reflexivity.
  - reflexivity.
  - intros c. vm_compute. discriminate.
  - discriminate.
Defined.

(** C2 as worded does not hold: a copy that breaks off after two of four
    bytes ends in an error, and the listing of the user then returns the new
    path, whose content is those two bytes. *)
Lemma failed_write_leaves_listed_prefix :
  let o := api_upload_image "carol" "2024-11-03T01:30:00" Sample.screenshot
             Sample.at_0130 Sample.at_0145 (CopyRaises 2)
             (Sample.serving Sample.two_users Sample.at_0130) in
  result o = Raise OSError ∧
  get_user_images (storage (state_after o)) "carol"
    = Ok ["uploads/carol/20241103_013000250000_screenshot.png"] ∧
  read_file (storage (state_after o)) "carol" "20241103_013000250000_screenshot.png"
    = Some [x89; x50]%byte ∧
  file Sample.screenshot = ([x89; x50] ++ [x4e; x47])%byte%list.
Proof. cbn zeta. split_and!; by vm_compute. Qed.

(** C10. When the write of an upload raises, the error leaves the handler,
    [mark_updated] has not run (version and printed lines are as before) and
    [image.file] is closed.  Whenever the handler does not return a response
    the version is unchanged; when it does, the version is the clock reading
    [mark_updated] took. *)
Theorem version_changes_only_on_success
    (username timestamp : string) (image : UploadFile)
    (now_name now_mark : datetime) (w : WriteOutcome) (s : ServerState) :
  let o := api_upload_image username timestamp image now_name now_mark w s in
  (startswith "image/" (content_type image) = true →
   (∀ c, entries (storage s) !! username ≠ Some (RegularFile c)) →
   w ≠ Written →
     result o = Raise OSError ∧
     app_state (state_after o) = app_state s ∧
     stdout (state_after o) = stdout s ∧
     file_closed o = true) ∧
  ((∀ r, result o ≠ Ok r) →
     app_state (state_after o) = app_state s ∧ stdout (state_after o) = stdout s) ∧
  (∀ r, result o = Ok r →
     w = Written ∧
     app_state (state_after o) = {| _last_update_time := now_mark |} ∧
     stdout (state_after o) = (stdout s ++ [FileSystem_updated_at now_mark])%list ∧
     file_closed o = true).
Proof.
  cbn zeta. split_and!.
  - intros Hct Hreg Hw. destruct (makedirs_not_file _ _ Hreg) as [fs1 Hmk].
    rewrite (upload_unfold _ _ _ _ _ _ _ fs1) by done. by destruct w.
  - unfold api_upload_image.
    destruct (startswith "image/" (content_type image)); cbn [negb]; [|done].
    destruct (os_makedirs (storage s) username) as [fs1|e]; [|done].
    destruct w; [|done..]. intros Hno. by destruct (Hno _ eq_refl).
  - intros r. unfold api_upload_image.
    destruct (startswith "image/" (content_type image)); cbn [negb]; [|done].
    destruct (os_makedirs (storage s) username) as [fs1|e]; [|done].
    by destruct w.
Qed.

Lemma version_changes_only_on_success_witness :
  (result (api_upload_image "carol" "2024-11-03T01:30:00" Sample.screenshot
             Sample.at_0130 Sample.at_0145 (CopyRaises 2)
             (Sample.serving Sample.two_users Sample.at_0130)) = Raise OSError ∧
   app_state (state_after
     (api_upload_image "carol" "2024-11-03T01:30:00" Sample.screenshot
        Sample.at_0130 Sample.at_0145 (CopyRaises 2)
        (Sample.serving Sample.two_users Sample.at_0130)))
   = app_state (Sample.serving Sample.two_users Sample.at_0130) ∧
   stdout (state_after
     (api_upload_image "carol" "2024-11-03T01:30:00" Sample.screenshot
        Sample.at_0130 Sample.at_0145 (CopyRaises 2)
        (Sample.serving Sample.two_users Sample.at_0130)))
   = stdout (Sample.serving Sample.two_users Sample.at_0130) ∧
   file_closed
     (api_upload_image "carol" "2024-11-03T01:30:00" Sample.screenshot
        Sample.at_0130 Sample.at_0145 (CopyRaises 2)
        (Sample.serving Sample.two_users Sample.at_0130)) = true).
Proof.
  apply (version_changes_only_on_success "carol" "2024-11-03T01:30:00"
           Sample.screenshot Sample.at_0130 Sample.at_0145 (CopyRaises 2)
           (Sample.serving Sample.two_users Sample.at_0130)).
  - reflexivity.
  - intros c. vm_compute. discriminate.
  - discriminate.
Defined.
End Upload.

Section Deletion.
Import Py Server.
Implicit Types (fs : option (gmap string Entry)) (u f p : string).

Lemma rmtree_removed_lookup fs u u' :
  entries (shutil_rmtree fs u Removed) !! u' =
    if decide (u' = u) then None else entries fs !! u'.
Proof.
  destruct fs as [root|]; cbn [shutil_rmtree fmap option_fmap option_map entries].
  - destruct (decide (u' = u)) as [->|Hne];
      [apply lookup_delete_eq|by apply lookup_delete_ne].
  - rewrite lookup_empty. by destruct (decide (u' = u)).
Qed.

Lemma component_nonempty name : Gallery.path_component name → name ≠ "".
Proof. by intros [? _]. Qed.

Lemma rmtree_raises_lookup fs u removed :
  os_path_isdir fs u = true →
  (∀ u', u' ≠ u →
     entries (shutil_rmtree fs u (RmtreeRaises removed)) !! u' = entries fs !! u') ∧
  (∀ f, read_file (shutil_rmtree fs u (RmtreeRaises removed)) u f
        = if decide (f ∈ removed) then None else read_file fs u f).
Proof.
  intros (files & Hu)%isdir_lookup. unfold read_file.
  destruct fs as [root|]; cbn [shutil_rmtree fmap option_fmap option_map entries] in *;
    [|by rewrite lookup_empty in Hu].
  split.
  - intros u' Hne. by rewrite lookup_alter_ne.
  - intros f. rewrite lookup_alter_eq, Hu. cbn.
    destruct (decide (f ∈ removed)) as [Hin|Hout].
    + by apply lookup_foldr_delete.
    + by apply lookup_foldr_delete_not_elem_of.
Qed.

(** C5, amended.  [delete_user_images] answers [False] and changes neither
    storage nor version for the empty name, the all-users sentinel and a name
    (one path component) that is no directory; it returns a value in every
    case.  For an existing user's directory the other entries are always
    untouched.  When [shutil.rmtree] removes the directory, the answer is
    [True], the directory and with it every file of the user is gone, and
    [mark_updated] has run once: the version is the clock reading it took,
    which is a higher version whenever that reading is later than the old
    one.  When [shutil.rmtree] raises, the answer is [False], the version is
    as before, and of the user's files those already unlinked are gone. *)
Theorem delete_refuses_or_removes_namespace
    (username : string) (now : datetime) (rm : RmtreeOutcome) (s : ServerState) :
  (username = "" ∨ username = ALL_USERS_OPTION ∨
   Gallery.path_component username ∧ os_path_isdir (storage s) username = false →
     delete_user_images username now rm s = (s, false)) ∧
  (Gallery.path_component username → username ≠ ALL_USERS_OPTION →
   os_path_isdir (storage s) username = true →
     let after := delete_user_images username now rm s in
     (∀ u, u ≠ username → entries (storage after.1) !! u = entries (storage s) !! u) ∧
     match rm with
     | Removed =>
         after.2 = true ∧
         entries (storage after.1) !! username = None ∧
         (∀ f, read_file (storage after.1) username f = None) ∧
         get_user_images (storage after.1) username = Ok [] ∧
         (∀ l p, get_user_images (storage after.1) ALL_USERS_OPTION = Ok l → p ∈ l →
                 ∃ u f, u ≠ username ∧ is_Some (read_file (storage s) u f) ∧
                        has_image_extension f ∧ p = Gallery.path_of u f) ∧
         app_state after.1 = {| _last_update_time := now |} ∧
         stdout after.1 = (stdout s ++ [FileSystem_updated_at now])%list ∧
         (datetime_gt now (last_update_time (app_state s)) = true →
          datetime_gt (last_update_time (app_state after.1))
                      (last_update_time (app_state s)) = true)
     | RmtreeRaises removed =>
         after.2 = false ∧
         (∀ f, read_file (storage after.1) username f
               = if decide (f ∈ removed) then None
                 else read_file (storage s) username f) ∧
         app_state after.1 = app_state s ∧
         stdout after.1 = (stdout s ++ [Delete_failed username])%list
     end).
Proof.
  split.
  - intros Hbad. unfold delete_user_images.
    destruct (String.eqb_spec username "") as [|Hne]; [done|].
    destruct (bool_decide_reflect (username = ALL_USERS_OPTION)) as [|Hall]; [done|].
    cbn [orb]. destruct Hbad as [?|[?|[_ ->]]]; done.
  - intros Hne%component_nonempty Hall Hdir. cbn zeta. unfold delete_user_images.
    destruct (String.eqb_spec username "") as [|_]; [done|].
    rewrite bool_decide_eq_false_2 by done. rewrite Hdir. cbn [orb negb].
    destruct rm as [|removed];
      cbn [fst snd mark_updated print with_storage storage app_state stdout].
    + assert (entries (shutil_rmtree (storage s) username Removed) !! username = None)
        as Hgone.
      { rewrite rmtree_removed_lookup. by rewrite decide_True. }
      split_and!; try done.
      * intros u Hu. rewrite rmtree_removed_lookup. by rewrite decide_False.
      * intros f. unfold read_file. by rewrite Hgone.
      * rewrite get_user_images_user by done. rewrite Hgone.
        unfold user_images. by rewrite Hgone.
      * intros l p Hl Hp. destruct (get_user_images_sound _ _ _ _ Hl Hp) as [u Hu].
        apply elem_of_user_images_read in Hu as (f & Hf & Himg & ->).
        exists u, f. revert Hf. unfold read_file. rewrite rmtree_removed_lookup.
        destruct (decide (u = username)) as [->|Hneq]; [by intros [? ?]|done].
    + destruct (rmtree_raises_lookup (storage s) username removed Hdir) as [Hother Hfiles].
      by split_and!.
Qed.

Lemma delete_refuses_or_removes_namespace_witness :
  delete_user_images ALL_USERS_OPTION Sample.at_0145 Removed
    (Sample.serving Sample.two_users Sample.at_0130)
    = (Sample.serving Sample.two_users Sample.at_0130, false) ∧
  (delete_user_images "bob" Sample.at_0145 Removed
     (Sample.serving Sample.two_users Sample.at_0130)).2 = true.
Proof.
  split.
  - apply (delete_refuses_or_removes_namespace ALL_USERS_OPTION Sample.at_0145 Removed
             (Sample.serving Sample.two_users Sample.at_0130)).
    right. left. reflexivity.
  - refine (proj1 (proj2 (proj2 (delete_refuses_or_removes_namespace
                                   "bob" Sample.at_0145 Removed
                                   (Sample.serving Sample.two_users Sample.at_0130))
                                _ _ _))).
    + unfold Gallery.path_component. compute_done.
    + by vm_compute.
    + reflexivity.
Defined.

(** C5 as worded does not hold: for a user whose directory exists the answer
    is [False] when [shutil.rmtree] raises; the files unlinked before that are
    gone, the others are still listed, and the version is as before.  And a
    deletion that succeeds while the clock still reads the version's value
    leaves the version where it was. *)
Lemma delete_of_existing_user_can_answer_false :
  let s := Sample.serving Sample.two_users Sample.at_0130 in
  let after := delete_user_images "bob" Sample.at_0145 (RmtreeRaises ["2_b.png"]) s in
  let same_tick := delete_user_images "bob" Sample.at_0130 Removed s in
  os_path_isdir (storage s) "bob" = true ∧
  after.2 = false ∧
  read_file (storage s) "bob" "2_b.png" = Some [x01]%byte ∧
  read_file (storage after.1) "bob" "2_b.png" = None ∧
  get_user_images (storage after.1) "bob" = Ok ["uploads/bob/1_a.PNG"] ∧
  app_state after.1 = app_state s ∧
  same_tick.2 = true ∧ app_state same_tick.1 = app_state s.
Proof. cbn zeta. split_and!; by vm_compute. Qed.

(** When [shutil.rmtree] raises, the handler answers [False], prints, and
    leaves the version alone. *)
Lemma delete_rmtree_raises username now removed s :
  username ≠ "" → username ≠ ALL_USERS_OPTION →
  os_path_isdir (storage s) username = true →
  let after := delete_user_images username now (RmtreeRaises removed) s in
  after.2 = false ∧ app_state after.1 = app_state s ∧
  stdout after.1 = (stdout s ++ [Delete_failed username])%list.
Proof.
  intros Hne Hall Hdir. cbn zeta. unfold delete_user_images.
  destruct (String.eqb_spec username "") as [|_]; [done|].
  rewrite bool_decide_eq_false_2 by done. by rewrite Hdir.
Qed.
End Deletion.

Section Versions.
Import Py Server.

Lemma compare_fields_refl l : compare_fields l l = Eq.
Proof. induction l as [|x l IH]; [done|]. cbn. by rewrite N.compare_refl. Qed.

Lemma datetime_gt_irrefl d : datetime_gt d d = false.
Proof. unfold datetime_gt. by rewrite compare_fields_refl. Qed.

(** A poll that brings back the version it last saw is told to skip. *)
Lemma poll_without_mutation_skips username s :
  check_for_updates username (last_update_time (app_state s)) s
    = Ok {| username_dropdown := None; gallery := None;
            client_last_update := last_update_time (app_state s) |}.
Proof. unfold check_for_updates. by rewrite datetime_gt_irrefl. Qed.

(** A mutation whose clock reading is later than the version a viewer holds
    is reported at the viewer's next poll. *)
Lemma poll_after_later_mutation_refreshes username v now s :
  datetime_gt now v = true →
  check_for_updates username v (mark_updated now s)
    = update_ui_components username (mark_updated now s).
Proof. intros Hgt. unfold check_for_updates. cbn. by rewrite Hgt. Qed.

(** C1, evaluated where it fails.  A viewer has seen version [01:45:12.000007].
    An upload then commits while [datetime.now()] reads that same instant, or
    an earlier one because the local clock was set back: the listing has
    changed, yet the version is not above the one seen and the viewer's poll
    is told to skip. *)
Theorem commit_on_unadvanced_clock_goes_unseen :
  let s0 := Sample.serving Sample.two_users Sample.at_0145 in
  let seen := Sample.at_0145 in
  let same_tick :=
    api_upload_image "carol" "2024-11-03T01:45:12" Sample.screenshot
      Sample.at_0145 Sample.at_0145 Written s0 in
  let clock_set_back :=
    api_upload_image "carol" "2024-11-03T01:30:00" Sample.screenshot
      Sample.at_0130 Sample.at_0130 Written s0 in
  (∃ choices images,
     initial_load s0 = Ok {| username_dropdown := Some choices;
                             gallery := Some images;
                             client_last_update := seen |}) ∧
  (http_status (result same_tick) = 201%nat ∧
   get_user_images (storage (state_after same_tick)) ALL_USERS_OPTION
     ≠ get_user_images (storage s0) ALL_USERS_OPTION ∧
   datetime_gt (last_update_time (app_state (state_after same_tick))) seen = false ∧
   check_for_updates ALL_USERS_OPTION seen (state_after same_tick)
     = Ok {| username_dropdown := None; gallery := None;
             client_last_update := seen |}) ∧
  (http_status (result clock_set_back) = 201%nat ∧
   get_user_images (storage (state_after clock_set_back)) ALL_USERS_OPTION
     ≠ get_user_images (storage s0) ALL_USERS_OPTION ∧
   datetime_gt (last_update_time (app_state (state_after clock_set_back))) seen = false ∧
   check_for_updates ALL_USERS_OPTION seen (state_after clock_set_back)
     = Ok {| username_dropdown := None; gallery := None;
             client_last_update := seen |}).
Proof.
  cbn zeta. split_and!; try by vm_compute.
  by eexists _, _.
Qed.
End Versions.

(** * Further properties of the catalogue and of uploads *)

Section MoreCatalogue.
Import Py Server.
Implicit Types (fs : option (gmap string Entry)) (u f p : string).

(** X1. [get_all_users] returns nothing when [UPLOAD_DIR] does not exist and
    otherwise exactly the entries that are directories, each once, in
    ascending order; plain files under [UPLOAD_DIR] are skipped. *)
Theorem get_all_users_lists_directories fs :
  get_all_users None = [] ∧
  (∀ u, u ∈ get_all_users fs ↔ ∃ files, entries fs !! u = Some (Directory files)) ∧
  NoDup (get_all_users fs) ∧
  StronglySorted (in_order id false) (get_all_users fs).
Proof.
  split_and!.
  - done.
  - intros u. by rewrite elem_of_get_all_users, isdir_lookup.
  - apply NoDup_get_all_users.
  - destruct fs as [root|]; cbn [get_all_users]; [apply sorted_StronglySorted|constructor].
Qed.

Lemma update_ui_components_ok (username : string) (s : ServerState) :
  let choices := ALL_USERS_OPTION :: get_all_users (storage s) in
  let shown := if bool_decide (username ∈ choices) then username else ALL_USERS_OPTION in
  ∃ images,
    get_user_images (storage s) shown = Ok images ∧
    update_ui_components username s
      = Ok {| username_dropdown := Some (choices, shown);
              gallery := Some images;
              client_last_update := last_update_time (app_state s) |} ∧
    shown ∈ choices.
Proof.
  cbn zeta. unfold update_ui_components.
  set (choices := ALL_USERS_OPTION :: get_all_users (storage s)).
  assert (∀ shown, shown ∈ choices → ∃ images, get_user_images (storage s) shown = Ok images)
    as Hok.
  { intros shown [->|Hdir]%elem_of_cons; [eexists; apply get_user_images_all|].
    destruct (decide (shown = ALL_USERS_OPTION)) as [->|Hall];
      [eexists; apply get_user_images_all|].
    destruct (decide (shown = "")) as [->|Hne]; [by eexists|].
    apply elem_of_get_all_users, isdir_lookup in Hdir as [files Hdir].
    rewrite get_user_images_user, Hdir by done. by eexists. }
  assert ((if bool_decide (username ∈ choices) then username else ALL_USERS_OPTION)
            ∈ choices) as Hin.
  { case_bool_decide; [done|]. by left. }
  destruct (Hok _ Hin) as [images Himages]. exists images.
  split; [done|]. split; [|done]. by rewrite Himages.
Qed.

(** X2. [update_ui_components] never raises, whatever name it is given: a
    name that is not among the choices (a deleted user, a plain file) is
    replaced by the all-users choice.  The value shown is one of the choices,
    the gallery is the listing of that value, and the baseline returned is the
    current version. *)
Theorem update_ui_components_always_answers (username : string) (s : ServerState) :
  let choices := ALL_USERS_OPTION :: get_all_users (storage s) in
  let shown := if bool_decide (username ∈ choices) then username else ALL_USERS_OPTION in
  ∃ images,
    get_user_images (storage s) shown = Ok images ∧
    update_ui_components username s
      = Ok {| username_dropdown := Some (choices, shown);
              gallery := Some images;
              client_last_update := last_update_time (app_state s) |} ∧
    shown ∈ choices.
Proof. apply update_ui_components_ok. Qed.

Lemma compare_fields_antisym a b : compare_fields a b = CompOpp (compare_fields b a).
Proof.
  revert b. induction a as [|x a IH]; intros [|y b]; cbn; try done.
  rewrite (N.compare_antisym y x). destruct (N.compare y x); cbn; auto.
Qed.

Lemma datetime_gt_asym a b : datetime_gt a b = true → datetime_gt b a = false.
Proof.
  unfold datetime_gt. rewrite (compare_fields_antisym (datetime_fields b)).
  by destruct (compare_fields (datetime_fields a) (datetime_fields b)).
Qed.

Lemma check_for_updates_cases username v s :
  (datetime_gt (last_update_time (app_state s)) v = true ∧
   check_for_updates username v s = update_ui_components username s) ∨
  (datetime_gt (last_update_time (app_state s)) v = false ∧
   check_for_updates username v s
     = Ok {| username_dropdown := None; gallery := None; client_last_update := v |}).
Proof.
  unfold check_for_updates.
  destruct (datetime_gt (last_update_time (app_state s)) v); [by left|by right].
Qed.

(** X3. A poll never raises and never hands back a baseline older than the
    one it was given; polling again with the baseline it returned, with no
    mutation in between, is told to skip, for any filter. *)
Theorem poll_settles_after_one_round (username username' : string) (v : datetime)
    (s : ServerState) :
  ∃ out,
    check_for_updates username v s = Ok out ∧
    datetime_gt v (client_last_update out) = false ∧
    check_for_updates username' (client_last_update out) s
      = Ok {| username_dropdown := None; gallery := None;
              client_last_update := client_last_update out |}.
Proof.
  destruct (check_for_updates_cases username v s) as [[Hgt ->]|[Hgt ->]].
  - destruct (update_ui_components_ok username s) as (images & _ & -> & _).
    eexists. split; [done|]. cbn [client_last_update].
    split; [by apply datetime_gt_asym|]. apply poll_without_mutation_skips.
  - eexists. split; [done|]. cbn [client_last_update].
    split; [apply datetime_gt_irrefl|].
    destruct (check_for_updates_cases username' v s) as [[Hgt' _]|[_ ->]]; [congruence|done].
Qed.

Lemma upload_ok_inv username timestamp image now_name now_mark w s r :
  result (api_upload_image username timestamp image now_name now_mark w s) = Ok r →
  w = Written ∧ startswith "image/" (content_type image) = true ∧
  ∃ fs1, os_makedirs (storage s) username = Ok fs1.
Proof.
  unfold api_upload_image.
  destruct (startswith "image/" (content_type image)); cbn [negb]; [|done].
  destruct (os_makedirs (storage s) username) as [fs1|e]; [|done].
  destruct w; [|done..]. intros _. by eauto.
Qed.

Lemma storage_after_upload username timestamp image now_name now_mark s fs1 :
  startswith "image/" (content_type image) = true →
  os_makedirs (storage s) username = Ok fs1 →
  storage (state_after
    (api_upload_image username timestamp image now_name now_mark Written s))
  = write_file fs1 username (strftime now_name ++ "_" ++ filename image) (file image).
Proof. intros Hct Hmk. by rewrite (upload_unfold _ _ _ _ _ _ _ fs1). Qed.

(** X4. A successful upload under a user name that is one path component
    touches one file only: every other file of every user reads as before,
    the entries of the other users are as before, and the users listed
    afterwards are the ones before plus the uploader. *)
Theorem successful_upload_adds_one_file
    (username timestamp : string) (image : UploadFile)
    (now_name now_mark : datetime) (w : WriteOutcome) (s : ServerState) (r : Response) :
  let o := api_upload_image username timestamp image now_name now_mark w s in
  let stored := strftime now_name ++ "_" ++ filename image in
  Gallery.path_component username →
  result o = Ok r →
  (∀ u f, u ≠ username ∨ f ≠ stored →
          read_file (storage (state_after o)) u f = read_file (storage s) u f) ∧
  (∀ u, u ≠ username →
        entries (storage (state_after o)) !! u = entries (storage s) !! u) ∧
  (∀ u, u ∈ get_all_users (storage (state_after o)) ↔
        u = username ∨ u ∈ get_all_users (storage s)).
Proof.
  cbn zeta. intros _ (-> & Hct & fs1 & Hmk)%upload_ok_inv.
  rewrite (storage_after_upload _ _ _ _ _ _ fs1) by done.
  destruct (makedirs_ok _ _ _ Hmk) as (files & Hu & Hold & Hother).
  destruct (write_file_lookup fs1 username (strftime now_name ++ "_" ++ filename image)
              (file image) files Hu) as [Hw Hwother].
  split_and!.
  - intros u f Hne. rewrite (read_file_write _ _ _ _ files) by done.
    rewrite decide_False by (intros [-> ->]; by destruct Hne).
    by apply read_file_makedirs with username.
  - intros u Hne. by rewrite Hwother, Hother.
  - intros u. rewrite !elem_of_get_all_users, !isdir_lookup.
    destruct (decide (u = username)) as [->|Hne].
    + split; [by left|]. intros _. by eexists.
    + rewrite Hwother, Hother by done. split; [by right|]. by intros [?|?].
Qed.

Lemma splitext_scan_finds p i n j c :
  (i ≤ j < i + n)%nat → String.get j p = Some c → c ≠ "."%char →
  (∀ k, (i ≤ k < j)%nat → is_Some (String.get k p)) →
  splitext_scan p i n = true.
Proof.
  revert i. induction n as [|n IH]; intros i Hj Hc Hdot Hdef; [lia|].
  cbn [splitext_scan]. destruct (decide (i = j)) as [->|Hne].
  - rewrite Hc. by destruct (Ascii.eqb_spec c ".").
  - destruct (Hdef i) as [a Ha]; [lia|]. rewrite Ha.
    destruct (Ascii.eqb a "."); [|done].
    apply IH; [lia|done|done|]. intros k Hk. apply Hdef. lia.
Qed.

Lemma get_is_Some (s : string) k : (k < String.length s)%nat → is_Some (String.get k s).
Proof.
  revert k. induction s as [|a s IH]; intros k; cbn [String.length String.get]; [lia|].
  destruct k as [|k]; [by eexists|]. intros Hk. apply IH. lia.
Qed.

Lemma get_app_l (a b : string) k :
  (k < String.length a)%nat → String.get k (a ++ b) = String.get k a.
Proof.
  revert k. induction a as [|x a IH]; intros k; cbn [String.length]; [lia|].
  rewrite str_app_cons. destruct k as [|k]; [done|]. cbn [String.get]. intros Hk.
  apply IH. lia.
Qed.

(** A stored name without separator has the extension of the original name. *)
Lemma stored_name_extension_exact ts name :
  rfind "." ts = -1 → rfind "/" ts = -1 → rfind "/" name = -1 →
  (os_path_splitext (ts ++ "_" ++ name)).2 = extension name.
Proof.
  intros Hdot Hsep Hname. unfold os_path_splitext, extension.
  rewrite !str_app_assoc. rewrite !(rfind_app _ (ts ++ "_") name), Hname.
  change (0 <=? -1) with false. cbv iota.
  rewrite (rfind_app_absent "/" ts "_") by done.
  pose proof (rfind_bounds "." name) as Hb.
  destruct (0 <=? rfind "." name) eqn:E.
  - assert ((Z.of_nat (String.length (ts ++ "_")) + rfind "." name >? -1) = true) as -> by lia.
    rewrite (splitext_scan_finds _ _ _ (String.length ts) "_"%char).
    + cbn [snd].
      replace (Z.to_nat (Z.of_nat (String.length (ts ++ "_")) + rfind "." name))
        with (String.length (ts ++ "_") + Z.to_nat (rfind "." name))%nat by lia.
      apply drop_app_r.
    + rewrite str_length_app. cbn [String.length]. lia.
    + rewrite <- str_app_assoc.
      rewrite <- (Nat.add_0_r (String.length ts)), get_app_r. done.
    + done.
    + intros k Hk. apply get_is_Some. rewrite !str_length_app. lia.
  - rewrite (rfind_app_absent "." ts "_") by done. done.
Qed.


Lemma elem_of_listing_all fs p :
  (∃ l, get_user_images fs ALL_USERS_OPTION = Ok l ∧ p ∈ l) ↔
  ∃ u, os_path_isdir fs u = true ∧ p ∈ user_images fs u.
Proof.
  rewrite get_user_images_all. split.
  - intros (l & [= <-] & Hp). rewrite elem_of_sorted, list_elem_of_join in Hp.
    destruct Hp as (l' & Hp & (u & -> & Hu%elem_of_get_all_users)%list_elem_of_fmap).
    by exists u.
  - intros (u & Hu & Hp). eexists. split; [done|].
    rewrite elem_of_sorted, list_elem_of_join. exists (user_images fs u).
    split; [done|]. apply list_elem_of_fmap. exists u.
    split; [done|]. by apply elem_of_get_all_users.
Qed.

(** X5. After a successful upload under a user name that is one path
    component, of a file whose original name holds no path separator, the
    all-users listing contains the new path exactly when the part of the
    original name from its last dot, lower-cased, is one of the image
    extensions. *)
Theorem upload_listed_iff_image_extension
    (username timestamp : string) (image : UploadFile)
    (now_name now_mark : datetime) (w : WriteOutcome) (s : ServerState) (r : Response) :
  let o := api_upload_image username timestamp image now_name now_mark w s in
  let stored := strftime now_name ++ "_" ++ filename image in
  let filepath := os_path_join (os_path_join UPLOAD_DIR username) stored in
  Gallery.path_component username →
  Gallery.no_separator (filename image) →
  result o = Ok r →
  ∃ l, get_user_images (storage (state_after o)) ALL_USERS_OPTION = Ok l ∧
       (filepath ∈ l ↔ lower (extension (filename image)) ∈ image_extensions).
Proof.
  cbn zeta. intros _ Hsep (-> & Hct & fs1 & Hmk)%upload_ok_inv.
  rewrite (storage_after_upload _ _ _ _ _ _ fs1) by done.
  destruct (makedirs_ok _ _ _ Hmk) as (files & Hu & _).
  assert (has_image_extension (strftime now_name ++ "_" ++ filename image)
          ↔ lower (extension (filename image)) ∈ image_extensions) as Hext.
  { unfold has_image_extension.
    by rewrite stored_name_extension_exact by (try apply rfind_strftime; done). }
  eexists. split; [apply get_user_images_all|]. rewrite <- Hext. split.
  - intros Hin. eapply has_image_extension_join.
    eapply (get_user_images_sound _ ALL_USERS_OPTION) in Hin as [u Hin];
      [|apply get_user_images_all].
    apply elem_of_user_images in Hin as (files' & f & _ & _ & Himg & Heq).
    rewrite Heq. by apply has_image_extension_join.
  - intros Himg.
    destruct (listed_after_write fs1 username _ (file image) files Hu Himg) as (l & Hl & Hin).
    rewrite get_user_images_all in Hl. by injection Hl as <-.
Qed.

Lemma upload_listed_iff_image_extension_witness :
  ∃ l, get_user_images
         (storage (state_after
            (api_upload_image "carol" "2024-11-03T01:30:00" Sample.screenshot
               Sample.at_0130 Sample.at_0145 Written
               (Sample.serving Sample.two_users Sample.at_0130))))
         ALL_USERS_OPTION = Ok l ∧
       (os_path_join (os_path_join UPLOAD_DIR "carol")
          (strftime Sample.at_0130 ++ "_" ++ filename Sample.screenshot) ∈ l
        ↔ lower (extension (filename Sample.screenshot)) ∈ image_extensions).
Proof.
  eapply (upload_listed_iff_image_extension "carol" "2024-11-03T01:30:00"
            Sample.screenshot Sample.at_0130 Sample.at_0145 Written
            (Sample.serving Sample.two_users Sample.at_0130)).
  - unfold Gallery.path_component. compute_done.
  - reflexivity.
  - reflexivity.
Defined.

Lemma delete_removed_unfold username now s :
  username ≠ "" → username ≠ ALL_USERS_OPTION →
  os_path_isdir (storage s) username = true →
  delete_user_images username now Removed s
    = (mark_updated now (with_storage (shutil_rmtree (storage s) username Removed) s), true).
Proof.
  intros Hne Hall Hdir. unfold delete_user_images.
  destruct (String.eqb_spec username "") as [|_]; [done|].
  rewrite bool_decide_eq_false_2 by done. by rewrite Hdir.
Qed.

Lemma delete_refused_unfold username now rm s :
  os_path_isdir (storage s) username = false →
  delete_user_images username now rm s = (s, false).
Proof.
  intros Hdir. unfold delete_user_images.
  destruct (String.eqb username "" || bool_decide (username = ALL_USERS_OPTION)); [done|].
  by rewrite Hdir.
Qed.

(** X6. Deleting a user a second time is refused: once a delete has answered
    [True], another delete of the same name answers [False] and changes
    nothing, version included. *)
Theorem second_delete_is_refused
    (username : string) (now now' : datetime) (rm' : RmtreeOutcome) (s : ServerState) :
  let after := delete_user_images username now Removed s in
  after.2 = true →
  delete_user_images username now' rm' after.1 = (after.1, false).
Proof.
  cbn zeta. unfold delete_user_images at 1.
  destruct (String.eqb_spec username "") as [|Hne]; [done|].
  destruct (bool_decide_reflect (username = ALL_USERS_OPTION)) as [|Hall]; [done|].
  cbn [orb]. destruct (os_path_isdir (storage s) username) eqn:Hdir; [|done].
  intros _. rewrite delete_removed_unfold by done. cbn [fst].
  apply delete_refused_unfold. unfold os_path_isdir. cbn [mark_updated with_storage storage].
  rewrite rmtree_removed_lookup. by rewrite decide_True.
Qed.

Lemma second_delete_is_refused_witness :
  delete_user_images "bob" Sample.at_0145 Removed
    (delete_user_images "bob" Sample.at_0130 Removed
       (Sample.serving Sample.two_users Sample.at_0130)).1
  = ((delete_user_images "bob" Sample.at_0130 Removed
        (Sample.serving Sample.two_users Sample.at_0130)).1, false).
Proof.
  apply (second_delete_is_refused "bob" Sample.at_0130 Sample.at_0145 Removed
           (Sample.serving Sample.two_users Sample.at_0130)).
  by vm_compute.
Defined.

Lemma user_images_lookup fs fs' u :
  entries fs' !! u = entries fs !! u → user_images fs' u = user_images fs u.
Proof. unfold user_images. by intros ->. Qed.

Lemma get_all_users_after_rmtree fs username :
  os_path_isdir fs username = true →
  get_all_users fs ≡ₚ username :: get_all_users (shutil_rmtree fs username Removed).
Proof.
  intros Hdir. apply NoDup_Permutation.
  - apply NoDup_get_all_users.
  - constructor; [|apply NoDup_get_all_users].
    rewrite elem_of_get_all_users. unfold os_path_isdir.
    rewrite rmtree_removed_lookup. by rewrite decide_True.
  - intros u. rewrite elem_of_cons, !elem_of_get_all_users.
    unfold os_path_isdir at 2. rewrite rmtree_removed_lookup.
    destruct (decide (u = username)) as [->|Hne].
    + split; [by left|done].
    + unfold os_path_isdir. split; [by right|]. by intros [?|?].
Qed.

(** X7. A delete that answers [True] takes out of the all-users listing the
    images of the deleted user and nothing else, and leaves the listing of
    every other user as it was. *)
Theorem delete_removes_exactly_the_users_images
    (username : string) (now : datetime) (s : ServerState) :
  let after := delete_user_images username now Removed s in
  after.2 = true →
  ∃ before_list after_list,
    get_user_images (storage s) ALL_USERS_OPTION = Ok before_list ∧
    get_user_images (storage after.1) ALL_USERS_OPTION = Ok after_list ∧
    before_list ≡ₚ (user_images (storage s) username ++ after_list)%list ∧
    (∀ u, u ≠ username → u ≠ ALL_USERS_OPTION →
          get_user_images (storage after.1) u = get_user_images (storage s) u).
Proof.
  cbn zeta. unfold delete_user_images at 1.
  destruct (String.eqb_spec username "") as [|Hne]; [done|].
  destruct (bool_decide_reflect (username = ALL_USERS_OPTION)) as [|Hall]; [done|].
  cbn [orb]. destruct (os_path_isdir (storage s) username) eqn:Hdir; [|done].
  intros _. rewrite delete_removed_unfold by done.
  cbn [fst mark_updated with_storage storage].
  set (fs' := shutil_rmtree (storage s) username Removed).
  assert (∀ u, u ≠ username → entries fs' !! u = entries (storage s) !! u) as Hother.
  { intros u Hu. unfold fs'. rewrite rmtree_removed_lookup. by rewrite decide_False. }
  eexists _, _. split; [apply get_user_images_all|]. split; [apply get_user_images_all|].
  split.
  - rewrite !sorted_perm. rewrite (get_all_users_after_rmtree _ _ Hdir).
    rewrite fmap_cons. cbn [mjoin list_join]. apply Permutation_app_head.
    fold fs'. assert (user_images (storage s) <$> get_all_users fs'
                      = user_images fs' <$> get_all_users fs') as ->; [|done].
    apply Forall_fmap_ext_1, Forall_forall. intros u Hu. symmetry.
    apply user_images_lookup, Hother. intros ->.
    apply elem_of_get_all_users in Hu. revert Hu. unfold os_path_isdir, fs'.
    rewrite rmtree_removed_lookup. by rewrite decide_True.
  - intros u Hu Hall'. destruct (decide (u = "")) as [->|Hne'];
      [by rewrite !get_user_images_empty|].
    rewrite !get_user_images_user by done.
    by rewrite (user_images_lookup (storage s) fs'), Hother by auto.
Qed.

Lemma delete_removes_exactly_the_users_images_witness :
  ∃ before_list after_list,
    get_user_images Sample.two_users ALL_USERS_OPTION = Ok before_list ∧
    get_user_images
      (storage (delete_user_images "bob" Sample.at_0145 Removed
                  (Sample.serving Sample.two_users Sample.at_0130)).1)
      ALL_USERS_OPTION = Ok after_list ∧
    before_list ≡ₚ (user_images Sample.two_users "bob" ++ after_list)%list ∧
    (∀ u, u ≠ "bob" → u ≠ ALL_USERS_OPTION →
          get_user_images
            (storage (delete_user_images "bob" Sample.at_0145 Removed
                        (Sample.serving Sample.two_users Sample.at_0130)).1) u
          = get_user_images Sample.two_users u).
Proof.
  apply (delete_removes_exactly_the_users_images "bob" Sample.at_0145
           (Sample.serving Sample.two_users Sample.at_0130)).
  by vm_compute.
Defined.

(** X8. For a user whose name is one path component other than the
    all-users choice and who has no directory, an accepted upload answers 201
    and makes the user appear among the users; deleting the user afterwards
    answers [True] and brings the entries of [UPLOAD_DIR], the users and the
    user's (empty) listing back to what they were. *)
Theorem upload_then_delete_restores_entries
    (username timestamp : string) (image : UploadFile)
    (now_name now_mark now : datetime) (s : ServerState) :
  startswith "image/" (content_type image) = true →
  Gallery.path_component username → username ≠ ALL_USERS_OPTION →
  entries (storage s) !! username = None →
  let uploaded := api_upload_image username timestamp image now_name now_mark Written s in
  let after := delete_user_images username now Removed (state_after uploaded) in
  http_status (result uploaded) = 201%nat ∧
  username ∈ get_all_users (storage (state_after uploaded)) ∧
  after.2 = true ∧
  entries (storage after.1) = entries (storage s) ∧
  get_all_users (storage after.1) = get_all_users (storage s) ∧
  get_user_images (storage after.1) username = Ok [].
Proof.
  intros Hct [Hne _] Hall Hnone. cbn zeta.
  assert (os_makedirs (storage s) username
          = Ok (Some (<[username := Directory ∅]> (entries (storage s))))) as Hmk.
  { unfold os_makedirs. by rewrite Hnone. }
  rewrite (upload_unfold _ _ _ _ _ _ _ _ Hct Hmk). cbn [state_after result http_status].
  set (fs2 := write_file _ _ _ _).
  assert (os_path_isdir fs2 username = true) as Hdir.
  { apply isdir_lookup. eexists. unfold fs2.
    cbn [write_file fmap option_fmap option_map entries].
    rewrite lookup_alter_eq, lookup_insert_eq. done. }
  assert (entries (shutil_rmtree fs2 username Removed) = entries (storage s)) as Hent.
  { unfold fs2. cbn [write_file shutil_rmtree fmap option_fmap option_map entries].
    rewrite delete_alter_eq, delete_insert_eq. by apply delete_id. }
  rewrite delete_removed_unfold by done. cbn [fst snd mark_updated with_storage storage].
  split_and!; try done.
  - by apply elem_of_get_all_users.
  - unfold fs2. cbn [write_file shutil_rmtree fmap option_fmap option_map get_all_users].
    rewrite delete_alter_eq, delete_insert_eq, (delete_id _ _ Hnone).
    destruct (storage s) as [root|] eqn:Hs; cbn [entries get_all_users]; [done|].
    unfold os_path_isdir. cbn [entries].
    by rewrite map_to_list_empty.
  - rewrite get_user_images_user by done. unfold user_images. by rewrite Hent, Hnone.
Qed.

Lemma upload_then_delete_restores_entries_witness :
  entries (storage
    (delete_user_images "carol" Sample.at_0145 Removed
       (state_after
          (api_upload_image "carol" "2024-11-03T01:30:00" Sample.screenshot
             Sample.at_0130 Sample.at_0130 Written
             (Sample.serving Sample.two_users Sample.at_0130)))).1)
  = entries (storage (Sample.serving Sample.two_users Sample.at_0130)).
Proof.
  apply (upload_then_delete_restores_entries "carol" "2024-11-03T01:30:00"
           Sample.screenshot Sample.at_0130 Sample.at_0130 Sample.at_0145
           (Sample.serving Sample.two_users Sample.at_0130)).
  - reflexivity.
  - unfold Gallery.path_component. compute_done.
  - by vm_compute.
  - by vm_compute.
Defined.

Lemma successful_upload_adds_one_file_witness :
  "bob" ∈ get_all_users (storage (state_after
          (api_upload_image "carol" "2024-11-03T01:30:00" Sample.screenshot
             Sample.at_0130 Sample.at_0130 Written
             (Sample.serving Sample.two_users Sample.at_0130)))) ↔
  "bob" = "carol" ∨
  "bob" ∈ get_all_users (storage (Sample.serving Sample.two_users Sample.at_0130)).
Proof.
  eapply (successful_upload_adds_one_file "carol" "2024-11-03T01:30:00"
           Sample.screenshot Sample.at_0130 Sample.at_0130 Written
           (Sample.serving Sample.two_users Sample.at_0130)).
  - unfold Gallery.path_component. compute_done.
  - reflexivity.
Defined.

(** X9. An upload under the name of the all-users choice is accepted and
    creates a directory of that name, which then shows among the users; the
    delete function refuses that name, so it cannot remove the directory. *)
Theorem sentinel_named_directory_cannot_be_deleted
    (timestamp : string) (image : UploadFile) (now_name now_mark now : datetime)
    (w : WriteOutcome) (rm : RmtreeOutcome) (s : ServerState) (r : Response) :
  let uploaded := api_upload_image ALL_USERS_OPTION timestamp image now_name now_mark w s in
  result uploaded = Ok r →
  ALL_USERS_OPTION ∈ get_all_users (storage (state_after uploaded)) ∧
  delete_user_images ALL_USERS_OPTION now rm (state_after uploaded)
    = (state_after uploaded, false).
Proof.
  cbn zeta. intros (-> & Hct & fs1 & Hmk)%upload_ok_inv. split; [|done].
  rewrite (storage_after_upload _ _ _ _ _ _ fs1) by done.
  destruct (makedirs_ok _ _ _ Hmk) as (files & Hu & _).
  destruct (write_file_lookup fs1 ALL_USERS_OPTION
              (strftime now_name ++ "_" ++ filename image) (file image) files Hu) as [Hw _].
  apply elem_of_get_all_users, isdir_lookup. by eexists.
Qed.

Lemma sentinel_named_directory_cannot_be_deleted_witness :
  ALL_USERS_OPTION ∈ get_all_users (storage (state_after
    (api_upload_image ALL_USERS_OPTION "2024-11-03T01:30:00" Sample.screenshot
       Sample.at_0130 Sample.at_0130 Written
       (Sample.serving Sample.two_users Sample.at_0130)))) ∧
  delete_user_images ALL_USERS_OPTION Sample.at_0145 Removed
    (state_after
       (api_upload_image ALL_USERS_OPTION "2024-11-03T01:30:00" Sample.screenshot
          Sample.at_0130 Sample.at_0130 Written
          (Sample.serving Sample.two_users Sample.at_0130)))
  = (state_after
       (api_upload_image ALL_USERS_OPTION "2024-11-03T01:30:00" Sample.screenshot
          Sample.at_0130 Sample.at_0130 Written
          (Sample.serving Sample.two_users Sample.at_0130)), false).
Proof.
  eapply (sentinel_named_directory_cannot_be_deleted "2024-11-03T01:30:00"
            Sample.screenshot Sample.at_0130 Sample.at_0130 Sample.at_0145 Written Removed
            (Sample.serving Sample.two_users Sample.at_0130)).
  reflexivity.
Defined.

(** X10. Two uploads by one user with the same original name whose names are
    stamped with the same clock reading get the same path: both are answered
    alike, the file holds the bytes of the second, and the storage is what the
    second upload alone would have left. *)
Theorem same_stamp_and_name_overwrites
    (username timestamp1 timestamp2 : string) (image1 image2 : UploadFile)
    (now_name now_mark1 now_mark2 : datetime) (s : ServerState) (r : Response) :
  let first := api_upload_image username timestamp1 image1 now_name now_mark1 Written s in
  let second :=
    api_upload_image username timestamp2 image2 now_name now_mark2 Written
      (state_after first) in
  let alone := api_upload_image username timestamp2 image2 now_name now_mark2 Written s in
  let stored := strftime now_name ++ "_" ++ filename image2 in
  filename image1 = filename image2 →
  startswith "image/" (content_type image2) = true →
  result first = Ok r →
  result second = result first ∧
  read_file (storage (state_after second)) username stored = Some (file image2) ∧
  storage (state_after second) = storage (state_after alone).
Proof.
  cbn zeta. intros Hname Hct2 (_ & Hct1 & fs1 & Hmk)%upload_ok_inv.
  destruct (makedirs_ok _ _ _ Hmk) as (files & Hu & _).
  rewrite (upload_unfold _ _ image1 _ _ _ _ fs1) by done. cbn zeta.
  set (stored := strftime now_name ++ "_" ++ filename image2). rewrite Hname. fold stored.
  cbn [state_after result].
  destruct (write_file_lookup fs1 username stored (file image1) files Hu) as [Hw _].
  assert (os_makedirs (write_file fs1 username stored (file image1)) username
          = Ok (write_file fs1 username stored (file image1))) as Hmk2.
  { unfold os_makedirs. by rewrite Hw. }
  rewrite (upload_unfold username timestamp2 image2 now_name now_mark2 Written
             (mark_updated now_mark1
                (with_storage (write_file fs1 username stored (file image1)) s))
             _ Hct2 Hmk2).
  cbn zeta. fold stored.
  rewrite (upload_unfold _ _ image2 _ _ _ s fs1) by done. cbn zeta. fold stored.
  cbn [state_after result storage mark_updated with_storage].
  split_and!; [done| |].
  - rewrite (read_file_write _ _ _ _ _ _ _ Hw). by rewrite decide_True.
  - destruct fs1 as [root|]; cbn [write_file fmap option_fmap option_map]; [|done].
    f_equal. rewrite alter_alter_eq. apply alter_ext. intros [files'|c] _; cbn; [|done].
    by rewrite insert_insert_eq.
Qed.

Lemma same_stamp_and_name_overwrites_witness :
  read_file
    (storage (state_after
       (api_upload_image "carol" "t2" Sample.screenshot Sample.at_0130 Sample.at_0145 Written
          (state_after
             (api_upload_image "carol" "t1" Sample.screenshot Sample.at_0130 Sample.at_0130
                Written (Sample.serving Sample.two_users Sample.at_0130))))))
    "carol" (strftime Sample.at_0130 ++ "_" ++ filename Sample.screenshot)
  = Some (file Sample.screenshot).
Proof.
  eapply (same_stamp_and_name_overwrites "carol" "t1" "t2" Sample.screenshot Sample.screenshot
            Sample.at_0130 Sample.at_0130 Sample.at_0145
            (Sample.serving Sample.two_users Sample.at_0130)); reflexivity.
Defined.
End MoreCatalogue.

(** * Stored names and timestamps *)

Section Timestamps.
Import Py Server.

Lemma string_of_uint_zeros k d :
  string_of_list_ascii (replicate k "0"%char) ++ NilEmpty.string_of_uint d
  = NilEmpty.string_of_uint (Nat.iter k Decimal.D0 d).
Proof.
  induction k as [|k IH]; [done|].
  cbn [replicate string_of_list_ascii Nat.iter nat_rect]. rewrite str_app_cons, IH. done.
Qed.

Lemma to_uint_nonnil (n : N) : N.to_uint n ≠ Decimal.Nil.
Proof. destruct n as [|p]; [done|]. apply DecimalPos.Unsigned.to_uint_nonnil. Qed.

Lemma string_of_uint_nonnil d :
  d ≠ Decimal.Nil → NilZero.string_of_uint d = NilEmpty.string_of_uint d.
Proof. by destruct d. Qed.

Lemma zero_pad_digits w n :
  zero_pad w n
  = NilEmpty.string_of_uint
      (Nat.iter (w - String.length (NilZero.string_of_uint (N.to_uint n)))
                Decimal.D0 (N.to_uint n)).
Proof.
  unfold zero_pad. rewrite <- string_of_uint_zeros.
  by rewrite (string_of_uint_nonnil _ (to_uint_nonnil n)).
Qed.

Lemma of_uint_zeros k d : N.of_uint (Nat.iter k Decimal.D0 d) = N.of_uint d.
Proof. induction k as [|k IH]; [done|]. cbn [Nat.iter nat_rect]. exact IH. Qed.

Lemma zero_pad_inj w w' n m : zero_pad w n = zero_pad w' m → n = m.
Proof.
  rewrite !zero_pad_digits. intros Heq.
  apply (f_equal NilEmpty.uint_of_string) in Heq. rewrite !NilEmpty.usu in Heq.
  injection Heq as Heq. apply (f_equal N.of_uint) in Heq.
  by rewrite !of_uint_zeros, !DecimalN.Unsigned.of_to in Heq.
Qed.

Lemma length_string_of_uint d :
  String.length (NilEmpty.string_of_uint d) = Decimal.nb_digits d.
Proof. induction d; cbn; by f_equal. Qed.

Lemma length_zeros k c : String.length (string_of_list_ascii (replicate k c)) = k.
Proof. induction k as [|k IH]; [done|]. cbn. by rewrite IH. Qed.

Lemma usize_nb_digits d : DecimalPos.Unsigned.usize d = N.of_nat (Decimal.nb_digits d).
Proof.
  induction d; cbn [DecimalPos.Unsigned.usize Decimal.nb_digits]; [done|..]; rewrite IHd; lia.
Qed.

Lemma of_uint_lower_bound d :
  Gallery.leading_digit_nonzero d →
  (10 ^ N.of_nat (Decimal.nb_digits (DecimalPos.Unsigned.tl d)) ≤ N.of_uint d)%N.
Proof.
  intros Hd. unfold N.of_uint. rewrite DecimalPos.Unsigned.of_uint_alt, <- usize_nb_digits.
  destruct d; try done; cbn [DecimalPos.Unsigned.tl];
    change (Decimal.rev (?c d)) with (Decimal.revapp d (c Decimal.Nil));
    rewrite DecimalPos.Unsigned.of_lu_revapp; cbn [DecimalPos.Unsigned.of_lu]; lia.
Qed.

Lemma pos_to_uint_leading p : Gallery.leading_digit_nonzero (Pos.to_uint p).
Proof.
  assert (Decimal.unorm (Pos.to_uint p) = Pos.to_uint p) as Hnorm.
  { rewrite <- DecimalPos.Unsigned.to_of, DecimalPos.Unsigned.of_to. done. }
  pose proof (DecimalPos.Unsigned.to_uint_nonnil p) as Hnil.
  pose proof (DecimalPos.Unsigned.to_uint_nonzero p) as Hzero.
  destruct (Pos.to_uint p) as [|d'| | | | | | | | |]; try done.
  unfold Decimal.unorm in Hnorm. cbn [Decimal.nzhead] in Hnorm.
  pose proof (DecimalFacts.nb_digits_nzhead d') as Hlen.
  destruct (Decimal.nzhead d') eqn:E; try (rewrite Hnorm in Hlen; cbn in Hlen; lia).
  by injection Hnorm as <-.
Qed.

Lemma nb_digits_to_uint (w : nat) (n : N) :
  (1 ≤ w)%nat → (n < 10 ^ N.of_nat w)%N → (Decimal.nb_digits (N.to_uint n) ≤ w)%nat.
Proof.
  intros Hw Hn. destruct n as [|p]; [cbn; lia|].
  change (N.to_uint (N.pos p)) with (Pos.to_uint p).
  pose proof (of_uint_lower_bound _ (pos_to_uint_leading p)) as Hlow.
  unfold N.of_uint in Hlow. rewrite DecimalPos.Unsigned.of_to in Hlow.
  assert (Decimal.nb_digits (Pos.to_uint p)
          = S (Decimal.nb_digits (DecimalPos.Unsigned.tl (Pos.to_uint p)))) as ->.
  { pose proof (pos_to_uint_leading p). by destruct (Pos.to_uint p). }
  destruct (decide (Decimal.nb_digits (DecimalPos.Unsigned.tl (Pos.to_uint p)) < w)%nat) as [|Hge];
    [lia|].
  assert (10 ^ N.of_nat w ≤ 10 ^ N.of_nat (Decimal.nb_digits (DecimalPos.Unsigned.tl (Pos.to_uint p))))%N.
  { apply N.pow_le_mono_r; lia. }
  lia.
Qed.

Lemma length_zero_pad (w : nat) (n : N) :
  (1 ≤ w)%nat → (n < 10 ^ N.of_nat w)%N → String.length (zero_pad w n) = w.
Proof.
  intros Hw Hn. unfold zero_pad. rewrite str_length_app, length_zeros.
  rewrite (string_of_uint_nonnil _ (to_uint_nonnil n)), length_string_of_uint.
  pose proof (nb_digits_to_uint w n Hw Hn). lia.
Qed.

Lemma str_app_inj_length (a a' b b' : string) :
  String.length a = String.length a' → a ++ b = a' ++ b' → a = a' ∧ b = b'.
Proof.
  revert a'. induction a as [|x a IH]; intros [|x' a']; cbn [String.length]; try done.
  rewrite !str_app_cons. intros Hlen [= -> Heq].
  destruct (IH a') as [-> ->]; [lia|done|done].
Qed.

Lemma zero_pad_app_inj (w : nat) (n m : N) (rest rest' : string) :
  (1 ≤ w)%nat → (n < 10 ^ N.of_nat w)%N → (m < 10 ^ N.of_nat w)%N →
  zero_pad w n ++ rest = zero_pad w m ++ rest' → n = m ∧ rest = rest'.
Proof.
  intros Hw Hn Hm Heq.
  apply str_app_inj_length in Heq as [Hpad ->]; [|by rewrite !length_zero_pad].
  split; [|done]. by apply zero_pad_inj in Hpad.
Qed.

Lemma length_strftime d : Gallery.valid_datetime d → String.length (strftime d) = 21%nat.
Proof.
  intros (Hy & Hmo & Hd & Hh & Hmi & Hs & Hus). unfold strftime.
  rewrite !str_length_app, !length_zero_pad; cbn; lia.
Qed.

Lemma stored_name_inj (a b : datetime) (f1 f2 : string) :
  Gallery.valid_datetime a → Gallery.valid_datetime b →
  strftime a ++ "_" ++ f1 = strftime b ++ "_" ++ f2 → a = b ∧ f1 = f2.
Proof.
  intros (Hy & Hmo & Hd & Hh & Hmi & Hs & Hus) (Hy' & Hmo' & Hd' & Hh' & Hmi' & Hs' & Hus').
  unfold strftime. rewrite <- !str_app_assoc. intros Heq.
  apply zero_pad_app_inj in Heq as [E1 Heq]; [|cbn; lia..].
  apply zero_pad_app_inj in Heq as [E2 Heq]; [|cbn; lia..].
  apply zero_pad_app_inj in Heq as [E3 Heq]; [|cbn; lia..].
  rewrite !(str_app_cons "_") in Heq. injection Heq as Heq.
  rewrite !str_app_nil_l in Heq.
  apply zero_pad_app_inj in Heq as [E4 Heq]; [|cbn; lia..].
  apply zero_pad_app_inj in Heq as [E5 Heq]; [|cbn; lia..].
  apply zero_pad_app_inj in Heq as [E6 Heq]; [|cbn; lia..].
  apply zero_pad_app_inj in Heq as [E7 Heq]; [|cbn; lia..].
  injection Heq as ->. split; [|done].
  destruct a, b; cbn in *; by subst.
Qed.

(** X11. For clock readings with every field in range, the stamp
    [strftime("%Y%m%d_%H%M%S%f")] is 21 characters long, holds neither a path
    separator nor a dot, and differs for different readings. *)
Theorem strftime_fixed_width_injective (a b : datetime) :
  Gallery.valid_datetime a → Gallery.valid_datetime b →
  String.length (strftime a) = 21%nat ∧
  rfind "/" (strftime a) = -1 ∧ rfind "." (strftime a) = -1 ∧
  (strftime a = strftime b → a = b).
Proof.
  intros Ha Hb. split_and!.
  - by apply length_strftime.
  - by apply rfind_strftime.
  - by apply rfind_strftime.
  - intros Heq. apply (stored_name_inj a b "" ""); [done..|by rewrite Heq].
Qed.

Lemma strftime_fixed_width_injective_witness :
  String.length (strftime Sample.at_0130) = 21%nat ∧
  rfind "/" (strftime Sample.at_0130) = -1 ∧ rfind "." (strftime Sample.at_0130) = -1 ∧
  (strftime Sample.at_0130 = strftime Sample.at_0145 → Sample.at_0130 = Sample.at_0145).
Proof.
  apply (strftime_fixed_width_injective Sample.at_0130 Sample.at_0145);
    unfold Gallery.valid_datetime; cbn; lia.
Defined.
End Timestamps.

(** * Chronology of stored names, and the delete button *)

Section Chronology.
Import Py Server.

Lemma of_uint_cons d :
  d ≠ Decimal.Nil →
  N.of_uint d
  = (DecimalPos.Unsigned.hd d * 10 ^ N.of_nat (Decimal.nb_digits (DecimalPos.Unsigned.tl d))
     + N.of_uint (DecimalPos.Unsigned.tl d))%N.
Proof.
  intros Hd. unfold N.of_uint. rewrite !DecimalPos.Unsigned.of_uint_alt, <- usize_nb_digits.
  destruct d; try done; cbn [DecimalPos.Unsigned.tl DecimalPos.Unsigned.hd];
    change (Decimal.rev (?c d)) with (Decimal.revapp d (c Decimal.Nil));
    rewrite DecimalPos.Unsigned.of_lu_revapp; cbn [DecimalPos.Unsigned.of_lu]; lia.
Qed.

Lemma hd_le_9 d : (DecimalPos.Unsigned.hd d ≤ 9)%N.
Proof. destruct d; cbn; lia. Qed.

Lemma of_uint_upper_bound d : (N.of_uint d < 10 ^ N.of_nat (Decimal.nb_digits d))%N.
Proof.
  induction d; [cbn; lia|..];
    (rewrite of_uint_cons by done;
     cbn [DecimalPos.Unsigned.tl DecimalPos.Unsigned.hd Decimal.nb_digits];
     rewrite Nat2N.inj_succ, N.pow_succ_r'; lia).
Qed.

Lemma compare_string_of_uint d d' :
  d ≠ Decimal.Nil → d' ≠ Decimal.Nil →
  String.compare (NilEmpty.string_of_uint d) (NilEmpty.string_of_uint d')
  = match N.compare (DecimalPos.Unsigned.hd d) (DecimalPos.Unsigned.hd d') with
    | Eq => String.compare (NilEmpty.string_of_uint (DecimalPos.Unsigned.tl d))
                           (NilEmpty.string_of_uint (DecimalPos.Unsigned.tl d'))
    | c => c
    end.
Proof. intros Hd Hd'. destruct d; try done; destruct d'; try done. Qed.

Lemma nb_digits_S d n :
  Decimal.nb_digits d = S n →
  d ≠ Decimal.Nil ∧ Decimal.nb_digits (DecimalPos.Unsigned.tl d) = n.
Proof. destruct d; cbn; [done|..]; by intros [= ->]. Qed.

(** Numerals of one length compare as the numbers they denote. *)
Lemma compare_numerals n d d' :
  Decimal.nb_digits d = n → Decimal.nb_digits d' = n →
  String.compare (NilEmpty.string_of_uint d) (NilEmpty.string_of_uint d')
  = N.compare (N.of_uint d) (N.of_uint d').
Proof.
  revert d d'. induction n as [|n IH]; intros d d' Hd Hd'.
  - apply DecimalFacts.nb_digits_0 in Hd as ->. by apply DecimalFacts.nb_digits_0 in Hd' as ->.
  - apply nb_digits_S in Hd as [Hnil Ht]. apply nb_digits_S in Hd' as [Hnil' Ht'].
    rewrite compare_string_of_uint, (of_uint_cons d), (of_uint_cons d') by done.
    rewrite (IH _ _ Ht Ht'), Ht, Ht'.
    pose proof (of_uint_upper_bound (DecimalPos.Unsigned.tl d)) as Hb.
    pose proof (of_uint_upper_bound (DecimalPos.Unsigned.tl d')) as Hb'.
    rewrite Ht in Hb. rewrite Ht' in Hb'.
    set (P := (10 ^ N.of_nat n)%N) in *.
    set (v := N.of_uint (DecimalPos.Unsigned.tl d)) in *.
    set (v' := N.of_uint (DecimalPos.Unsigned.tl d')) in *.
    destruct (N.compare_spec (DecimalPos.Unsigned.hd d) (DecimalPos.Unsigned.hd d'))
      as [->|Hlt|Hgt].
    + destruct (N.compare_spec v v') as [->|Hv|Hv]; symmetry.
      * apply N.compare_refl.
      * apply N.compare_lt_iff. lia.
      * apply N.compare_gt_iff. lia.
    + symmetry. apply N.compare_lt_iff. nia.
    + symmetry. apply N.compare_gt_iff. nia.
Qed.

Lemma nb_digits_iter_zeros k d :
  Decimal.nb_digits (Nat.iter k Decimal.D0 d) = (k + Decimal.nb_digits d)%nat.
Proof. induction k as [|k IH]; [done|]. cbn. by rewrite <- IH. Qed.

Lemma compare_zero_pad (w : nat) (n m : N) :
  (1 ≤ w)%nat → (n < 10 ^ N.of_nat w)%N → (m < 10 ^ N.of_nat w)%N →
  String.compare (zero_pad w n) (zero_pad w m) = N.compare n m.
Proof.
  intros Hw Hn Hm. pose proof (length_zero_pad w n Hw Hn) as Ln.
  pose proof (length_zero_pad w m Hw Hm) as Lm.
  revert Ln Lm. rewrite !zero_pad_digits, !length_string_of_uint. intros Ln Lm.
  rewrite (compare_numerals w) by done.
  by rewrite !of_uint_zeros, !DecimalN.Unsigned.of_to.
Qed.

Lemma compare_app_same_length (a a' b b' : string) :
  String.length a = String.length a' →
  String.compare (a ++ b) (a' ++ b')
  = match String.compare a a' with
    | Eq => String.compare b b'
    | c => c
    end.
Proof.
  revert a'. induction a as [|x a IH]; intros [|x' a']; cbn [String.length]; try done.
  intros [= Hlen]. rewrite !str_app_cons. cbn [String.compare].
  destruct (Ascii.compare x x'); [by apply IH|done..].
Qed.

Lemma compare_zero_pad_app (w : nat) (n m : N) (rest rest' : string) :
  (1 ≤ w)%nat → (n < 10 ^ N.of_nat w)%N → (m < 10 ^ N.of_nat w)%N →
  String.compare (zero_pad w n ++ rest) (zero_pad w m ++ rest')
  = match N.compare n m with
    | Eq => String.compare rest rest'
    | c => c
    end.
Proof.
  intros Hw Hn Hm. rewrite compare_app_same_length by (by rewrite !length_zero_pad).
  by rewrite compare_zero_pad.
Qed.

(** Stored names compare as their clock readings, and on a tie as the
    original file names. *)
Lemma compare_stored_names (a b : datetime) (f1 f2 : string) :
  Gallery.valid_datetime a → Gallery.valid_datetime b →
  String.compare (strftime a ++ "_" ++ f1) (strftime b ++ "_" ++ f2)
  = match compare_fields (datetime_fields a) (datetime_fields b) with
    | Eq => String.compare f1 f2
    | c => c
    end.
Proof.
  intros (Hy & Hmo & Hd & Hh & Hmi & Hs & Hus) (Hy' & Hmo' & Hd' & Hh' & Hmi' & Hs' & Hus').
  unfold strftime. rewrite <- !str_app_assoc.
  rewrite !compare_zero_pad_app by (cbn; lia).
  rewrite !(str_app_cons "_"), !str_app_nil_l. cbn [String.compare].
  change (Ascii.compare "_" "_") with Eq. cbv iota.
  rewrite !compare_zero_pad_app by (cbn; lia).
  cbn [String.compare]. change (Ascii.compare "_" "_") with Eq. cbv iota.
  cbn [datetime_fields compare_fields].
  repeat (match goal with |- context [N.compare ?x ?y] => destruct (N.compare x y) end;
          try reflexivity).
Qed.

Lemma later_name_above (a b : datetime) (f1 f2 : string) :
  Gallery.valid_datetime a → Gallery.valid_datetime b →
  datetime_gt a b = true →
  String.ltb (strftime b ++ "_" ++ f2) (strftime a ++ "_" ++ f1) = true.
Proof.
  intros Ha Hb Hgt. unfold String.ltb. rewrite compare_stored_names by done.
  revert Hgt. unfold datetime_gt.
  rewrite (compare_fields_antisym (datetime_fields a)).
  by destruct (compare_fields (datetime_fields b) (datetime_fields a)).
Qed.

(** X12. Stored names compare as the clock readings that stamp them, field by
    field from the year down, and as the original names when the readings are
    equal: sorting by stored name is sorting by upload time. *)
Theorem stored_names_order_as_clock_readings (a b : datetime) (f1 f2 : string) :
  Gallery.valid_datetime a → Gallery.valid_datetime b →
  String.compare (strftime a ++ "_" ++ f1) (strftime b ++ "_" ++ f2)
  = match compare_fields (datetime_fields a) (datetime_fields b) with
    | Eq => String.compare f1 f2
    | c => c
    end.
Proof. apply compare_stored_names. Qed.

Lemma stored_names_order_as_clock_readings_witness :
  String.compare (strftime Sample.at_0130 ++ "_" ++ "z.png")
                 (strftime Sample.at_0145 ++ "_" ++ "a.png")
  = match compare_fields (datetime_fields Sample.at_0130)
                         (datetime_fields Sample.at_0145) with
    | Eq => String.compare "z.png" "a.png"
    | c => c
    end.
Proof.
  apply (stored_names_order_as_clock_readings Sample.at_0130 Sample.at_0145);
    unfold Gallery.valid_datetime; cbn; lia.
Defined.

Lemma startswith_sep_has_sep f : startswith "/" f = true → rfind "/" f ≠ -1.
Proof.
  destruct f as [|c f]; [done|]. unfold startswith. cbn [String.prefix].
  destruct (Ascii.ascii_dec "/" c) as [<-|]; [|done]. intros _.
  cbn [rfind]. pose proof (rfind_bounds "/" f).
  destruct (0 <=? rfind "/" f) eqn:E; [lia|]. by rewrite Ascii.eqb_refl.
Qed.

Lemma basename_prefixed (pre f : string) :
  pre = "" ∨ endswith "/" pre = true → rfind "/" f = -1 →
  os_path_basename (pre ++ f) = f.
Proof.
  intros Hpre Hf. unfold os_path_basename. rewrite rfind_app, Hf.
  change (0 <=? -1) with false. cbv iota.
  assert (Z.to_nat (rfind "/" pre + 1) = (String.length pre + 0)%nat) as ->.
  { destruct Hpre as [->|Hend]; [done|]. rewrite (rfind_endswith _ _ Hend). lia. }
  apply drop_app_r.
Qed.

Lemma basename_join d f : rfind "/" f = -1 → os_path_basename (os_path_join d f) = f.
Proof.
  intros Hf. unfold os_path_join.
  destruct (startswith "/" f) eqn:Hs; [by apply startswith_sep_has_sep in Hs|].
  destruct (String.eqb_spec d "") as [->|Hne]; cbn [orb].
  - apply basename_prefixed; [by left|done].
  - destruct (endswith "/" d) eqn:E.
    + apply basename_prefixed; [by right|done].
    + rewrite str_app_assoc. apply basename_prefixed; [|done].
      right. apply endswith_app_one.
Qed.

Lemma StronglySorted_order {A} (R : A → A → Prop) (l : list A) (x y : A) :
  StronglySorted R l → x ∈ l → y ∈ l → ¬ R y x → x ≠ y →
  ∃ l1 l2 l3, l = (l1 ++ x :: l2 ++ y :: l3)%list.
Proof.
  intros Hsorted Hx Hy Hnot Hne. induction Hsorted as [|z l' Hl' IH Hz].
  - by apply elem_of_nil in Hx.
  - apply elem_of_cons in Hx as [->|Hx]; apply elem_of_cons in Hy as [->|Hy].
    + done.
    + apply list_elem_of_split in Hy as (l2 & l3 & ->). by exists [], l2, l3.
    + rewrite Forall_forall in Hz. destruct Hnot. by apply Hz.
    + destruct (IH Hx Hy) as (l1 & l2 & l3 & ->). by exists (z :: l1), l2, l3.
Qed.

Lemma get_user_images_sorted fs username l :
  get_user_images fs username = Ok l →
  StronglySorted (in_order os_path_basename true) l.
Proof.
  unfold get_user_images.
  destruct (if bool_decide (username = ALL_USERS_OPTION) then _ else _) as [paths|e];
    cbn [bind]; [|done].
  intros [= <-]. apply sorted_StronglySorted.
Qed.

(** X13. Newest first: when a listing holds two stored files whose original
    names have no path separator, the one stamped with the later clock reading
    stands before the other, whichever users they belong to. *)
Theorem newer_upload_is_listed_first
    (fs : option (gmap string Entry)) (username u1 u2 f1 f2 : string)
    (a b : datetime) (l : list string) :
  let newer := os_path_join (os_path_join UPLOAD_DIR u1) (strftime a ++ "_" ++ f1) in
  let older := os_path_join (os_path_join UPLOAD_DIR u2) (strftime b ++ "_" ++ f2) in
  Gallery.valid_datetime a → Gallery.valid_datetime b →
  datetime_gt a b = true →
  Gallery.no_separator f1 → Gallery.no_separator f2 →
  get_user_images fs username = Ok l →
  newer ∈ l → older ∈ l →
  ∃ l1 l2 l3, l = (l1 ++ newer :: l2 ++ older :: l3)%list.
Proof.
  cbn zeta. intros Ha Hb Hgt Hf1 Hf2 Hl Hnew Hold.
  assert (∀ d f, Gallery.no_separator f → rfind "/" (strftime d ++ "_" ++ f) = -1) as Hsep.
  { intros d f Hf. rewrite str_app_assoc. apply rfind_app_absent; [|done].
    apply rfind_app_absent; [by apply rfind_strftime|done]. }
  pose proof (later_name_above a b f1 f2 Ha Hb Hgt) as Hlt.
  apply (StronglySorted_order (in_order os_path_basename true));
    [by eapply get_user_images_sorted|done|done| |].
  - unfold in_order, String.le. rewrite !basename_join by auto.
    revert Hlt. unfold String.ltb, String.leb.
    rewrite (String.compare_antisym (strftime b ++ "_" ++ f2)).
    destruct (String.compare (strftime a ++ "_" ++ f1) (strftime b ++ "_" ++ f2));
      cbn; [done|done|]. by intros _ [].
  - intros Heq. apply (f_equal os_path_basename) in Heq.
    rewrite !basename_join in Heq by auto.
    apply stored_name_inj in Heq as [-> _]; [|done..].
    by rewrite datetime_gt_irrefl in Hgt.
Qed.

Lemma newer_upload_is_listed_first_witness :
  ∃ l1 l2 l3,
    ["uploads/carol/20241103_014512000007_screenshot.png";
     "uploads/carol/20241103_013000250000_screenshot.png"]
    = (l1 ++ os_path_join (os_path_join UPLOAD_DIR "carol")
               (strftime Sample.at_0145 ++ "_" ++ "screenshot.png")
          :: l2 ++ os_path_join (os_path_join UPLOAD_DIR "carol")
                     (strftime Sample.at_0130 ++ "_" ++ "screenshot.png") :: l3)%list.
Proof.
  apply (newer_upload_is_listed_first Sample.carol_twice "carol" "carol" "carol"
           "screenshot.png" "screenshot.png" Sample.at_0145 Sample.at_0130).
  - unfold Gallery.valid_datetime; cbn; lia.
  - unfold Gallery.valid_datetime; cbn; lia.
  - reflexivity.
  - reflexivity.
  - reflexivity.
  - by vm_compute.
  - by left.
  - right. by left.
Defined.

(** X14. A file stored by a successful upload is still readable with its
    bytes after a further upload by the same user stamped with a different
    clock reading, however that further upload ends. *)
Theorem later_upload_keeps_earlier_file
    (username timestamp1 timestamp2 : string) (image1 image2 : UploadFile)
    (a b mark1 mark2 : datetime) (w : WriteOutcome) (s : ServerState) (r1 : Response) :
  let first := api_upload_image username timestamp1 image1 a mark1 Written s in
  let second := api_upload_image username timestamp2 image2 b mark2 w (state_after first) in
  Gallery.valid_datetime a → Gallery.valid_datetime b → a ≠ b →
  result first = Ok r1 →
  read_file (storage (state_after second)) username (strftime a ++ "_" ++ filename image1)
    = Some (file image1).
Proof.
  cbn zeta. intros Ha Hb Hab (_ & Hct1 & fs1 & Hmk)%upload_ok_inv.
  destruct (makedirs_ok _ _ _ Hmk) as (files & Hu & _).
  set (stored1 := strftime a ++ "_" ++ filename image1).
  set (first := api_upload_image username timestamp1 image1 a mark1 Written s).
  assert (read_file (storage (state_after first)) username stored1 = Some (file image1))
    as Hfirst.
  { unfold first. rewrite (storage_after_upload _ _ _ _ _ _ fs1) by done.
    rewrite (read_file_write _ _ _ _ files) by done. by rewrite decide_True. }
  assert (stored1 ≠ strftime b ++ "_" ++ filename image2) as Hne.
  { intros Heq. by apply stored_name_inj in Heq as [? _]. }
  assert (∃ files1, entries (storage (state_after first)) !! username
                    = Some (Directory files1)) as [files1 Hdir].
  { unfold first. rewrite (storage_after_upload _ _ _ _ _ _ fs1) by done.
    destruct (write_file_lookup fs1 username stored1 (file image1) files Hu) as [Hw' _].
    by eexists. }
  assert (os_makedirs (storage (state_after first)) username
          = Ok (storage (state_after first))) as Hmk2.
  { unfold os_makedirs. by rewrite Hdir. }
  unfold api_upload_image at 1.
  destruct (startswith "image/" (content_type image2)); cbn [negb]; [|done].
  rewrite Hmk2. destruct w as [| |n]; cbn [state_after storage mark_updated with_storage].
  - rewrite (read_file_write _ _ _ _ files1) by done.
    by rewrite decide_False by (by intros [_ ?]).
  - done.
  - rewrite (read_file_write _ _ _ _ files1) by done.
    by rewrite decide_False by (by intros [_ ?]).
Qed.

Lemma later_upload_keeps_earlier_file_witness :
  read_file
    (storage (state_after
       (api_upload_image "carol" "t2" Sample.notes Sample.at_0145 Sample.at_0145 Written
          (state_after
             (api_upload_image "carol" "t1" Sample.screenshot Sample.at_0130 Sample.at_0130
                Written (Sample.serving Sample.two_users Sample.at_0130))))))
    "carol" (strftime Sample.at_0130 ++ "_" ++ filename Sample.screenshot)
  = Some (file Sample.screenshot).
Proof.
  eapply (later_upload_keeps_earlier_file "carol" "t1" "t2" Sample.screenshot Sample.notes
            Sample.at_0130 Sample.at_0145 Sample.at_0130 Sample.at_0145 Written
            (Sample.serving Sample.two_users Sample.at_0130)).
  - unfold Gallery.valid_datetime; cbn; lia.
  - unfold Gallery.valid_datetime; cbn; lia.
  - discriminate.
  - reflexivity.
Defined.

(** X15. [handle_delete_batch] never raises.  Unless it announces a deletion
    the version is unchanged.  When it deletes an existing user it returns the
    all-users view, in which the user is no longer a choice, with the new
    version as baseline, so the next poll of the viewer who deleted skips. *)
Theorem delete_button_outcomes
    (username : string) (now : datetime) (rm : RmtreeOutcome) (s : ServerState) :
  let clicked := Gallery.handle_delete_batch username now rm s in
  (∃ out, clicked.2 = Ok out) ∧
  ((∀ message, clicked.1.2 ≠ [Gallery.gr_Info message]) →
     app_state clicked.1.1 = app_state s) ∧
  (username ≠ "" → username ≠ ALL_USERS_OPTION →
   os_path_isdir (storage s) username = true → rm = Removed →
     (username ∉ get_all_users (storage clicked.1.1)) ∧
     (∃ images,
        clicked.2 = Ok {| username_dropdown :=
                            Some (ALL_USERS_OPTION :: get_all_users (storage clicked.1.1),
                                  ALL_USERS_OPTION);
                          gallery := Some images;
                          client_last_update := now |}) ∧
     check_for_updates ALL_USERS_OPTION now clicked.1.1
       = Ok {| username_dropdown := None; gallery := None; client_last_update := now |}).
Proof.
  cbn zeta. unfold Gallery.handle_delete_batch.
  assert (∀ u s', ∃ out, update_ui_components u s' = Ok out) as Hok.
  { intros u s'. destruct (update_ui_components_ok u s') as (images & _ & -> & _).
    by eexists. }
  destruct (String.eqb_spec username "") as [->|Hne]; cbn [orb].
  { cbn [fst snd]. split_and!; [apply Hok|done|done]. }
  destruct (bool_decide_reflect (username = ALL_USERS_OPTION)) as [->|Hall].
  { cbn [fst snd]. split_and!; [apply Hok|done|done]. }
  destruct (os_path_isdir (storage s) username) eqn:Hdir.
  - destruct rm as [|removed].
    + rewrite delete_removed_unfold by done. cbn [fst snd].
      set (s' := mark_updated now _).
      assert (username ∉ get_all_users (storage s')) as Hgone.
      { rewrite elem_of_get_all_users. unfold os_path_isdir, s'.
        cbn [mark_updated with_storage storage]. rewrite rmtree_removed_lookup.
        by rewrite decide_True. }
      split_and!; [apply Hok|by intros H; destruct (H _ eq_refl)|].
      intros _ _ _ _. split_and!; [done| |].
      * destruct (update_ui_components_ok ALL_USERS_OPTION s') as (images & _ & -> & _).
        exists images. rewrite bool_decide_eq_true_2 by by left. done.
      * apply (poll_without_mutation_skips ALL_USERS_OPTION s').
    + unfold delete_user_images.
      destruct (String.eqb_spec username "") as [|_]; [done|].
      rewrite bool_decide_eq_false_2 by done. rewrite Hdir. cbn [orb negb fst snd].
      split_and!; [apply Hok|done|done].
  - rewrite delete_refused_unfold by done. cbn [fst snd].
    split_and!; [apply Hok|done|done].
Qed.

Lemma delete_button_outcomes_witness :
  ("bob" ∉ get_all_users
     (storage (Gallery.handle_delete_batch "bob" Sample.at_0145 Removed
                 (Sample.serving Sample.two_users Sample.at_0130)).1.1)) ∧
  check_for_updates ALL_USERS_OPTION Sample.at_0145
    (Gallery.handle_delete_batch "bob" Sample.at_0145 Removed
       (Sample.serving Sample.two_users Sample.at_0130)).1.1
  = Ok {| username_dropdown := None; gallery := None;
          client_last_update := Sample.at_0145 |}.
Proof.
  destruct (delete_button_outcomes "bob" Sample.at_0145 Removed
              (Sample.serving Sample.two_users Sample.at_0130)) as (_ & _ & H).
  destruct H as (H1 & _ & H3); [done|done|by vm_compute|done|].
  split; [exact H1|exact H3].
Defined.
End Chronology.

(** * The client over whole runs of events *)

Section ClientRuns.
Import Py Client ClientApp.
Context (float : string → option Q).

Lemma Qle_bool_neg (a b : Q) : negb (Qle_bool a b) = true ↔ (b < a)%Q.
Proof.
  split.
  - intros H. apply Qnot_le_lt. intros Hle. apply Qle_bool_iff in Hle.
    by rewrite Hle in H.
  - intros Hlt. by rewrite Qle_bool_false.
Qed.

Lemma show_config_window_click_time u a c g :
  click_time (config (show_config_window float u a c g).1) =
    match c with
    | Some text =>
        match float text with
        | Some new_time => if negb (Qle_bool new_time 0) then new_time
                           else click_time (config g)
        | None => click_time (config g)
        end
    | None => click_time (config g)
    end.
Proof.
  unfold show_config_window.
  destruct u, a, c as [text|]; try destruct (float text) as [q|];
    try destruct (negb (Qle_bool q 0)); reflexivity.
Qed.

Lemma show_config_window_press_time u a c g :
  left_button_press_time (show_config_window float u a c g).1 = left_button_press_time g.
Proof.
  unfold show_config_window.
  destruct c as [text|]; try destruct (float text) as [q|];
    try destruct (negb (Qle_bool q 0)); reflexivity.
Qed.

Lemma show_config_window_positive u a c g :
  (0 < click_time (config g))%Q →
  (0 < click_time (config (show_config_window float u a c g).1))%Q.
Proof.
  intros Hpos. rewrite show_config_window_click_time.
  destruct c as [text|]; [|done]. destruct (float text) as [q|]; [|done].
  destruct (negb (Qle_bool q 0)) eqn:E; [|done]. by apply Qle_bool_neg.
Qed.

(** X16. [show_config_window] keeps the hold threshold positive whatever is
    typed, and never touches a pending press. *)
Theorem dialog_keeps_threshold_positive
    (username_answer server_address_answer click_time_str : option string) (g : Globals) :
  (0 < click_time (config g))%Q →
  let g' := (show_config_window float username_answer server_address_answer
               click_time_str g).1 in
  (0 < click_time (config g'))%Q ∧
  left_button_press_time g' = left_button_press_time g.
Proof.
  intros Hpos. cbn zeta. split.
  - by apply show_config_window_positive.
  - apply show_config_window_press_time.
Qed.

(** X17. A threshold text that is no number, or a number that is not
    positive, leaves the threshold as it was and shows one warning; a positive
    number becomes the threshold and no warning is shown. *)
Theorem dialog_rejects_invalid_threshold
    (username_answer server_address_answer : option string) (text : string) (g : Globals) :
  let shown := show_config_window float username_answer server_address_answer
                 (Some text) g in
  (float text = None ∨ (∃ q, float text = Some q ∧ (q <= 0)%Q) →
     click_time (config shown.1) = click_time (config g) ∧
     ∃ message, shown.2 = [showwarning "无效输入" message; showinfo_after 100 "配置完成"]) ∧
  (∀ q, float text = Some q → (0 < q)%Q →
     click_time (config shown.1) = q ∧ shown.2 = [showinfo_after 100 "配置完成"]).
Proof.
  cbn zeta. split.
  - intros Hbad. rewrite show_config_window_click_time. unfold show_config_window.
    destruct (float text) as [q|].
    + destruct Hbad as [|(q' & [= <-] & Hle)]; [done|].
      apply Qle_bool_iff in Hle. rewrite Hle. cbn. split; [done|]. by eexists.
    + cbn. split; [done|]. by eexists.
  - intros q Hq Hpos. rewrite show_config_window_click_time. unfold show_config_window.
    rewrite Hq. apply Qle_bool_neg in Hpos. rewrite Hpos. split; reflexivity.
Qed.

Lemma run_cons e events g :
  run float (e :: events) g =
    ((run float events (step float e g).1).1,
     ((step float e g).2 ++ (run float events (step float e g).1).2)%list).
Proof.
  change (run float (e :: events) g)
    with (let '(g1, started) := step float e g in
          let '(g2, started') := run float events g1 in
          (g2, (started ++ started')%list)).
  destruct (step float e g) as [g1 started]. cbn [fst snd].
  destruct (run float events g1) as [g2 started']. reflexivity.
Qed.

Lemma step_positive e g :
  (0 < click_time (config g))%Q → (0 < click_time (config (step float e g).1))%Q.
Proof.
  intros Hpos. destruct e as [x y button pressed now|u a c]; cbn [step fst].
  - unfold on_click. destruct button; try done. destruct pressed; [done|].
    destruct (left_button_press_time g); [|done].
    by destruct (Qle_bool _ _).
  - by apply show_config_window_positive.
Qed.

Lemma run_positive events g :
  (0 < click_time (config g))%Q → (0 < click_time (config (run float events g).1))%Q.
Proof.
  revert g. induction events as [|e events IH]; intros g Hpos; [done|].
  rewrite run_cons. cbn [fst]. by apply IH, step_positive.
Qed.

(** X18. After any run of pointer events and configuration dialogs from the
    initial globals the threshold is positive, so a press whose release carries
    a clock reading not later than its own starts no upload. *)
Theorem instant_click_never_uploads
    (events : list Event) (x y x' y' : Z) (t0 t1 : Q) :
  let g := (run float events initial_globals).1 in
  (t1 <= t0)%Q →
  (0 < click_time (config g))%Q ∧
  (release x' y' t1 (press x y t0 g).1).2 = [].
Proof.
  cbn zeta. intros Hle.
  assert (0 < click_time (config (run float events initial_globals).1))%Q as Hpos.
  { apply run_positive. reflexivity. }
  split; [done|].
  rewrite press_sets_time. cbn [fst].
  rewrite (release_pending _ _ _ _ t0) by reflexivity. cbn [snd config].
  rewrite Qle_bool_false; [done|].
  apply Qle_lt_trans with 0%Q; [|done].
  apply (Qplus_le_l _ _ t0). ring_simplify. done.
Qed.

Lemma step_budget e g :
  (length (step float e g).2 + pending (step float e g).1
   ≤ (if is_left_press e then 1 else 0) + pending g)%nat.
Proof.
  destruct e as [x y button pressed now|u a c]; cbn [step fst snd is_left_press].
  - unfold on_click, pending. destruct g as [cfg [t|]].
    all: destruct button, pressed; cbn; try lia.
    destruct (Qle_bool _ _); cbn; lia.
  - unfold pending. rewrite show_config_window_press_time. cbn. lia.
Qed.

Lemma run_budget events g :
  (length (run float events g).2 + pending (run float events g).1
   ≤ length (filter (λ e, is_left_press e) events) + pending g)%nat.
Proof.
  revert g. induction events as [|e events IH]; intros g; [cbn; lia|].
  rewrite run_cons. cbn [fst snd]. rewrite length_app.
  pose proof (step_budget e g) as Hstep. specialize (IH (step float e g).1).
  destruct (is_left_press e) eqn:E.
  - rewrite filter_cons_True by (by apply Is_true_true). cbn [length]. lia.
  - rewrite filter_cons_False by (by apply Is_true_false). lia.
Qed.

(** X19. Over any run of events from the initial globals, the uploads started
    are at most as many as the presses of the left button. *)
Theorem uploads_bounded_by_presses (events : list Event) :
  (length (run float events initial_globals).2
   ≤ length (filter (λ e, is_left_press e) events))%nat.
Proof.
  pose proof (run_budget events initial_globals) as H. cbn [pending initial_globals] in H.
  unfold pending in H. cbn in H. lia.
Qed.

Lemma step_ignored e g : is_left_click e = false → step float e g = (g, []).
Proof.
  destruct e as [x y button pressed now|u a c]; [|done].
  by destruct button.
Qed.

(** X20. Clicks of the other buttons can be struck from a run of events: the
    globals at the end and the uploads started are the same. *)
Theorem other_buttons_change_nothing (events : list Event) (g : Globals) :
  run float (filter (λ e, is_left_click e) events) g = run float events g.
Proof.
  revert g. induction events as [|e events IH]; intros g; [done|].
  destruct (is_left_click e) eqn:E.
  - rewrite filter_cons_True by (by apply Is_true_true). by rewrite !run_cons, IH.
  - rewrite filter_cons_False by (by apply Is_true_false).
    rewrite IH, (run_cons e), step_ignored by done.
    cbn [fst snd]. by destruct (run float events g).
Qed.
End ClientRuns.

Section ClientInstances.
Import Py Client ClientApp.

Lemma dialog_keeps_threshold_positive_witness :
  (0 < click_time (config (show_config_window float_of_sample (Some "carol") None
                             (Some "-1") initial_globals).1))%Q ∧
  left_button_press_time (show_config_window float_of_sample (Some "carol") None
                            (Some "-1") initial_globals).1
  = left_button_press_time initial_globals.
Proof.
  apply (dialog_keeps_threshold_positive float_of_sample (Some "carol") None (Some "-1")
           initial_globals).
  reflexivity.
Defined.

Lemma dialog_rejects_invalid_threshold_witness :
  (click_time (config (show_config_window float_of_sample None None (Some "0")
                         initial_globals).1)
   = click_time (config initial_globals) ∧
   ∃ message,
     (show_config_window float_of_sample None None (Some "0") initial_globals).2
     = [showwarning "无效输入" message; showinfo_after 100 "配置完成"]) ∧
  (click_time (config (show_config_window float_of_sample None None (Some "2.5")
                         initial_globals).1) = (5 # 2)%Q ∧
   (show_config_window float_of_sample None None (Some "2.5") initial_globals).2
   = [showinfo_after 100 "配置完成"]).
Proof.
  split.
  - apply (dialog_rejects_invalid_threshold float_of_sample None None "0" initial_globals).
    right. exists 0%Q. split; [reflexivity|]. by vm_compute.
  - apply (dialog_rejects_invalid_threshold float_of_sample None None "2.5" initial_globals).
    + reflexivity.
    + reflexivity.
Defined.

Lemma instant_click_never_uploads_witness :
  (0 < click_time (config (run float_of_sample sample_events initial_globals).1))%Q ∧
  (release 5 5 200
     (press 5 5 200 (run float_of_sample sample_events initial_globals).1).1).2 = [].
Proof.
  apply (instant_click_never_uploads float_of_sample sample_events 5 5 5 5 200 200).
  by vm_compute.
Defined.
End ClientInstances.

(** * The uploader and the shutdown check *)

Section Uploader.
Import Py Client ClientApp.

(** X21. [take_screenshot_and_upload] lets no exception out, sends at most one
    request and none when the capture fails.  It prints the success line
    exactly when the capture succeeded, the server answered with a status
    outside 4xx and 5xx and the answer parsed; otherwise it prints one of the
    two error lines. *)
Theorem uploader_contains_every_failure
    (cfg : Config) (now_iso : string) (grab : GrabOutcome) (post : PostOutcome) :
  let attempt := ClientApp.take_screenshot_and_upload cfg now_iso grab post in
  raised attempt = None ∧
  (length (requests attempt) ≤ 1)%nat ∧
  (grab = GrabRaises → requests attempt = []) ∧
  (Uploaded_successfully ∈ printed attempt ↔
     ∃ png status_code, grab = Grabbed png ∧ post = Responded status_code JsonParsed ∧
                        raise_for_status status_code = false) ∧
  (Uploaded_successfully ∉ printed attempt ↔
     Error_uploading ∈ printed attempt ∨ Unexpected_error ∈ printed attempt).
Proof.
  cbn zeta. unfold ClientApp.take_screenshot_and_upload, try_block.
  destruct grab as [png|]; [destruct post as [status_code [|[|]]|];
                             [destruct (raise_for_status status_code) eqn:E..|]|];
    cbn [requests printed raised length app]; rewrite ?elem_of_cons, ?elem_of_nil;
    (split_and!; [done|lia|done|..]).
  all: try (split; [intros [?|[?|?]]; done|intros (? & ? & ? & ? & ?); congruence]).
  all: try (split; [intros [?|[?|?]]; done|by intros (? & ? & ? & ?)]).
  all: try (split; [intros _; by eexists _, _|intros _; by right; left]).
  all: try (split; [intros H; destruct H; by right; left|intros [[?|[?|?]]|[?|[?|?]]]; done]).
  all: split; [intros _; first [by left; right; left|by right; right; left]
              |intros _ [?|[?|?]]; done].
Qed.

Lemma sent_request cfg now_iso png post r :
  r ∈ requests (ClientApp.take_screenshot_and_upload cfg now_iso (Grabbed png) post) →
  r = {| url := upload_url cfg;
         data_username := username cfg;
         data_timestamp := now_iso;
         files_image_name := "screenshot.png";
         files_image_content := png;
         files_image_type := "image/png";
         timeout := 15 |}.
Proof.
  unfold ClientApp.take_screenshot_and_upload, try_block.
  destruct post as [status_code [|[|]]|]; [destruct (raise_for_status status_code)..|];
    cbn [requests]; by intros ->%list_elem_of_singleton.
Qed.

(** X22. Client and server together, for a configured user name that is one
    path component and no plain file under [UPLOAD_DIR]: the request the
    uploader sends passes the route's form validation and content-type check;
    when the write completes the answer is 201, which [raise_for_status] lets
    through, the screenshot is stored under the configured user name and its
    path is in the all-users listing. *)
Theorem screenshot_request_is_stored_and_listed
    (cfg : Config) (now_iso : string) (png : list byte) (post : PostOutcome)
    (r : Request) (now_name now_mark : Server.datetime) (s : Server.ServerState) :
  let o := handle_request r now_name now_mark Server.Written s in
  let stored := Server.strftime now_name ++ "_screenshot.png" in
  let filepath := os_path_join (os_path_join Server.UPLOAD_DIR (username cfg)) stored in
  Gallery.path_component (username cfg) →
  now_iso ≠ "" →
  r ∈ requests (ClientApp.take_screenshot_and_upload cfg now_iso (Grabbed png) post) →
  (∀ c, Server.entries (Server.storage s) !! username cfg ≠ Some (Server.RegularFile c)) →
  Server.http_status (Server.result o) = 201%nat ∧
  raise_for_status (Server.http_status (Server.result o)) = false ∧
  Server.read_file (Server.storage (Server.state_after o)) (username cfg) stored
    = Some png ∧
  ∃ l, Server.get_user_images (Server.storage (Server.state_after o))
         Server.ALL_USERS_OPTION = Server.Ok l ∧ filepath ∈ l.
Proof.
  cbn zeta. intros [Hne _] Hiso ->%sent_request Hreg. unfold handle_request.
  cbn [data_username data_timestamp files_image_name files_image_type files_image_content].
  rewrite (route_runs_handler _ _ _ "image/png") by done.
  cbn [Server.part_filename Server.part_file].
  destruct (makedirs_not_file _ _ Hreg) as [fs1 Hmk].
  rewrite (upload_unfold _ _ _ _ _ _ _ fs1) by done. cbn zeta.
  cbn [Server.state_after Server.result Server.http_status Server.filename Server.file
       Server.storage Server.mark_updated Server.with_storage].
  destruct (makedirs_ok _ _ _ Hmk) as (files & Hu & _).
  split_and!; [done|done| |].
  - rewrite (read_file_write _ _ _ _ files) by done. by rewrite decide_True.
  - apply listed_after_write with files; [done|].
    unfold Server.has_image_extension.
    rewrite (stored_name_extension_exact _ "screenshot.png")
      by (try apply rfind_strftime; done).
    compute_done.
Qed.

Lemma screenshot_request_is_stored_and_listed_witness :
  Server.http_status (Server.result
    (handle_request
       {| url := upload_url default_config;
          data_username := "default_user";
          data_timestamp := "2024-11-03T01:30:00";
          files_image_name := "screenshot.png";
          files_image_content := [x89; x50]%byte;
          files_image_type := "image/png";
          timeout := 15 |}
       Sample.at_0130 Sample.at_0145 Server.Written
       (Sample.serving Sample.two_users Sample.at_0130))) = 201%nat.
Proof.
  apply (screenshot_request_is_stored_and_listed default_config "2024-11-03T01:30:00"
           [x89; x50]%byte (Responded 201 JsonParsed)).
  - unfold Gallery.path_component. compute_done.
  - done.
  - by left.
  - intros c. vm_compute. discriminate.
Defined.

Lemma replace_app old new (a b : string) :
  replace old new (a ++ b) = replace old new a ++ replace old new b.
Proof. induction a as [|x a IH]; [done|]. rewrite str_app_cons. cbn. by rewrite IH. Qed.

Lemma rfind_replace old new s : old ≠ new → rfind old (replace old new s) = -1.
Proof.
  intros Hne. induction s as [|a s IH]; [done|]. cbn [replace].
  apply rfind_cons_absent; [|done].
  destruct (Ascii.eqb_spec a old); congruence.
Qed.

Lemma endswith_replace old new c s :
  c ≠ old → endswith c s = true → endswith c (replace old new s) = true.
Proof.
  intros Hc. induction s as [|x [|y s] IH]; [done| |].
  - cbn. intros ->%Ascii.eqb_eq. destruct (Ascii.eqb_spec c old); [done|].
    apply Ascii.eqb_refl.
  - intros H. specialize (IH H). exact IH.
Qed.

(** X23. The upload URL holds no backslash and ends with [api/upload], which a
    slash precedes whenever a server address is configured. *)
Theorem upload_url_uses_forward_slashes (cfg : Config) :
  rfind "\" (upload_url cfg) = -1 ∧
  ∃ base, upload_url cfg = base ++ "api/upload" ∧
          (server_address cfg ≠ "" → endswith "/" base = true).
Proof.
  split; [by apply rfind_replace|].
  unfold upload_url, os_path_join. change (startswith "/" "api/upload") with false.
  cbv iota. destruct (String.eqb_spec (server_address cfg) "") as [->|Hne]; cbn [orb].
  - by exists "".
  - destruct (endswith "/" (server_address cfg)) eqn:E.
    + rewrite replace_app. eexists. split; [done|]. intros _.
      by apply endswith_replace.
    + rewrite str_app_assoc, replace_app. eexists. split; [done|]. intros _.
      apply endswith_replace; [done|]. apply endswith_app_one.
Qed.
End Uploader.

Section Shutdown.
Import ClientApp.

Lemma app_run_cons e events a : app_run (e :: events) a = app_run events (app_step e a).
Proof. reflexivity. Qed.

Lemma stopped_stays events a :
  root_tk_alive a = false → root_tk_alive (app_run events a) = false.
Proof.
  revert a. induction events as [|e events IH]; intros a Ha; [done|].
  rewrite app_run_cons. apply IH. destruct e; cbn [app_step]; [done|].
  by rewrite Ha, andb_false_r.
Qed.

Lemma run_shut_down events : app_run events shut_down = shut_down.
Proof. induction events as [|[] events IH]; [done|exact IH..]. Qed.

Lemma run_exit_requested events :
  app_run events exit_requested
  = if bool_decide (timer_fires ∈ events) then shut_down else exit_requested.
Proof.
  induction events as [|e events IH]; [done|]. rewrite app_run_cons.
  destruct e.
  - change (app_step exit_clicked exit_requested) with exit_requested. rewrite IH.
    destruct (bool_decide_reflect (timer_fires ∈ events)) as [Hin|Hout].
    + rewrite bool_decide_eq_true_2; [done|by right].
    + rewrite bool_decide_eq_false_2; [done|]. by intros [?|?]%elem_of_cons.
  - change (app_step timer_fires exit_requested) with shut_down.
    rewrite run_shut_down, bool_decide_eq_true_2; [done|by left].
Qed.

Lemma run_main_started_reaches events :
  app_run events main_started = main_started ∨
  app_run events main_started = exit_requested ∨
  app_run events main_started = shut_down.
Proof.
  induction events as [|e events IH]; [by left|]. rewrite app_run_cons. destruct e.
  - change (app_step exit_clicked main_started) with exit_requested.
    rewrite run_exit_requested. destruct (bool_decide _); auto.
  - exact IH.
Qed.

Lemma run_main_started_dead events :
  root_tk_alive (app_run events main_started) = false ↔
  ∃ l1 l2 l3, events = (l1 ++ exit_clicked :: l2 ++ timer_fires :: l3)%list.
Proof.
  split.
  - induction events as [|e events IH]; [done|]. rewrite app_run_cons. destruct e.
    + change (app_step exit_clicked main_started) with exit_requested.
      rewrite run_exit_requested.
      destruct (bool_decide_reflect (timer_fires ∈ events)) as [Hin|Hout]; [|done].
      intros _. apply list_elem_of_split in Hin as (l2 & l3 & ->). by exists [], l2, l3.
    + change (app_step timer_fires main_started) with main_started. intros Hdead.
      destruct (IH Hdead) as (l1 & l2 & l3 & ->). by exists (timer_fires :: l1), l2, l3.
  - intros (l1 & l2 & l3 & ->). unfold app_run. rewrite foldl_app. cbn [foldl].
    fold (app_run l1 main_started).
    fold (app_run (l2 ++ timer_fires :: l3) (app_step exit_clicked (app_run l1 main_started))).
    assert (timer_fires ∈ (l2 ++ timer_fires :: l3)%list) as Hin.
    { apply elem_of_app. right. by left. }
    destruct (run_main_started_reaches l1) as [->|[->| ->]].
    + change (app_step exit_clicked main_started) with exit_requested.
      by rewrite run_exit_requested, bool_decide_eq_true_2.
    + change (app_step exit_clicked exit_requested) with exit_requested.
      by rewrite run_exit_requested, bool_decide_eq_true_2.
    + change (app_step exit_clicked shut_down) with shut_down. by rewrite run_shut_down.
Qed.

(** X24. From the state [main] starts in, the root window is gone exactly when
    the exit entry was chosen and the shutdown check ran afterwards; listener,
    tray icon and the scheduled check stop together with it, and until then
    the check stays scheduled. *)
Theorem shutdown_needs_exit_then_one_check (events : list AppEvent) :
  let a := app_run events main_started in
  (root_tk_alive a = false ↔
     ∃ l1 l2 l3, events = (l1 ++ exit_clicked :: l2 ++ timer_fires :: l3)%list) ∧
  mouse_listener_running a = root_tk_alive a ∧
  tray_icon_running a = root_tk_alive a ∧
  check_scheduled a = root_tk_alive a.
Proof.
  cbn zeta. split; [apply run_main_started_dead|].
  by destruct (run_main_started_reaches events) as [->|[->| ->]].
Qed.
End Shutdown.

Section MoreInstances.
Import Py Client ClientApp.

Lemma uploader_contains_every_failure_witness :
  requests (ClientApp.take_screenshot_and_upload default_config "2024-11-03T01:30:00"
              GrabRaises PostRaises) = [].
Proof.
  apply (uploader_contains_every_failure default_config "2024-11-03T01:30:00"
           GrabRaises PostRaises).
  reflexivity.
Defined.

Lemma upload_url_uses_forward_slashes_witness :
  ∃ base, upload_url default_config = base ++ "api/upload" ∧
          (server_address default_config ≠ "" → endswith "/" base = true).
Proof. apply (upload_url_uses_forward_slashes default_config). Defined.

Lemma shutdown_needs_exit_then_one_check_witness :
  root_tk_alive (app_run [timer_fires; exit_clicked; exit_clicked; timer_fires] main_started)
  = false.
Proof.
  apply (proj1 (shutdown_needs_exit_then_one_check
                  [timer_fires; exit_clicked; exit_clicked; timer_fires])).
  by exists [timer_fires], [exit_clicked], [].
Defined.

Lemma get_all_users_lists_directories_witness :
  "bob" ∈ Server.get_all_users Sample.two_users.
Proof.
  apply (get_all_users_lists_directories Sample.two_users).
  eexists. by vm_compute.
Defined.
End MoreInstances.
